(** * Air-quality exposure costs and the graph AQI updater

    A shallow embedding of [src/utils/aq_exposures.py] and
    [src/utils/graph_aqi_updater.py] of the green path server, and the
    properties of the exposure-to-cost model, the exposure validators and the
    refresh cycle of [GraphAqiUpdater].

    Python floats are IEEE-754 binary64 numbers; they are modelled by the
    Standard Library's [spec_float] with [prec = 53] and [emax = 1024], whose
    operations round to nearest, ties to even, as the hardware does.  The
    built-ins the code calls on floats ([round], [str], the conversion of
    [int] to [float], true division of two [int]s) are defined on top of it
    with exact integer arithmetic. *)

From Stdlib Require Import ZArith Floats.SpecFloat DecimalString.
From stdpp Require Import gmap strings list fin_maps.

Open Scope Z_scope.

(** ** Binary64 floats and the float built-ins of Python *)

Module F64.

Definition prec : Z := 53.
Definition emax : Z := 1024.

Definition float := spec_float.

Definition add : float → float → float := SFadd prec emax.
Definition sub : float → float → float := SFsub prec emax.
Definition mul : float → float → float := SFmul prec emax.
Definition div : float → float → float := SFdiv prec emax.
Definition ltb : float → float → bool := SFltb.
Definition leb : float → float → bool := SFleb.
Definition eqb : float → float → bool := SFeqb.

Definition nan : float := S754_nan.

(** The float nearest to [n / d], signed by [s]; [n >= 0]. *)
Definition of_ratio (s : bool) (n : Z) (d : positive) : float :=
  match n with
  | Zpos p => div (S754_finite s p 0) (S754_finite false d 0)
  | _ => S754_zero s
  end.

(** A decimal literal of the source text, written as a fraction:
    [lit 2 10] is [0.2], [lit 4999 1000] is [4.999]. *)
Definition lit (n : Z) (d : positive) : float :=
  of_ratio (n <? 0) (Z.abs n) d.

(** [float(z)] for an [int] [z]; infinite when [z] is out of range. *)
Definition of_Z (z : Z) : float := binary_normalize prec emax z 0 false.

Definition is_zero (x : float) : bool :=
  match x with S754_zero _ => true | _ => false end.

Definition is_finite (x : float) : bool :=
  match x with S754_zero _ | S754_finite _ _ _ => true | _ => false end.

(** Structural equality of two representations. *)
Definition same (x y : float) : bool :=
  match x, y with
  | S754_zero a, S754_zero b | S754_infinity a, S754_infinity b => Bool.eqb a b
  | S754_nan, S754_nan => true
  | S754_finite a m e, S754_finite b n f =>
      Bool.eqb a b && Pos.eqb m n && Z.eqb e f
  | _, _ => false
  end.

(** The integer nearest to [a / b], ties to the even one; [a >= 0 < b]. *)
Definition div_half_even (a b : Z) : Z :=
  let q := a / b in
  let r := a mod b in
  match 2 * r ?= b with
  | Lt => q
  | Gt => q + 1
  | Eq => if Z.even q then q else q + 1
  end.

(** [m * 2^e * k] rounded to the nearest integer, ties to even. *)
Definition scaled_half_even (m : positive) (e : Z) (k : Z) : Z :=
  match e with
  | Zneg p => div_half_even (Zpos m * k) (2 ^ Zpos p)
  | _ => Zpos m * 2 ^ e * k
  end.

(** [round(x, 2)]: the exact value of [x] is rounded half-even to two
    decimals, and the float nearest to that decimal is returned; infinities
    and NaN round to themselves. *)
Definition round_ndigits2 (x : float) : float :=
  match x with
  | S754_finite s m e => of_ratio s (scaled_half_even m e 100) 100
  | _ => x
  end.

(** [round(x)]: the nearest integer, ties to even; [None] for the
    infinities and NaN, where Python raises. *)
Definition round_to_Z (x : float) : option Z :=
  match x with
  | S754_zero _ => Some 0
  | S754_finite s m e =>
      let q := scaled_half_even m e 1 in Some (if s then - q else q)
  | _ => None
  end.

(** *** [repr] of a float: the shortest decimal that reads back as it *)

(** [|x| = num / den] for a finite [x] of mantissa [m] and exponent [e]. *)
Definition frac (m : positive) (e : Z) : Z * Z :=
  match e with
  | Zneg p => (Zpos m, 2 ^ Zpos p)
  | _ => (Zpos m * 2 ^ e, 1)
  end.

Fixpoint dec_up (fuel : nat) (num den k : Z) : Z :=
  match fuel with
  | O => k
  | S f => if num <? den * 10 ^ k then k else dec_up f num den (k + 1)
  end.

Fixpoint dec_down (fuel : nat) (num den t : Z) : Z :=
  match fuel with
  | O => t
  | S f => if den <=? num * 10 ^ t then t else dec_down f num den (t + 1)
  end.

(** The [k] with [10^(k-1) <= num/den < 10^k]. *)
Definition dec_exponent (num den : Z) : Z :=
  if den <=? num then dec_up 400 num den 1 else 1 - dec_down 400 num den 1.

(** The float nearest to [c * 10^j]. *)
Definition of_decimal (c j : Z) : float :=
  match j with
  | Zneg p => of_ratio false c (10 ^ p)
  | _ => of_ratio false (c * 10 ^ j) 1
  end.

(** Among the two [n]-digit decimals around [x = num/den], one that reads
    back as [x]: the nearer one if both do, and of two that are equally near
    the one whose last digit is even. *)
Definition candidate (x : float) (num den k n : Z) : option (Z * Z) :=
  let j := k - n in
  let '(a, b) := match j with
                 | Zneg p => (num * 10 ^ Zpos p, den)
                 | _ => (num, den * 10 ^ j)
                 end in
  let lo := a / b in
  let r := a mod b in
  let ok_lo := same (of_decimal lo j) x in
  let ok_hi := same (of_decimal (lo + 1) j) x in
  if ok_lo && ok_hi then
    Some (match 2 * r ?= b with
          | Lt => lo
          | Gt => lo + 1
          | Eq => if Z.even lo then lo else lo + 1
          end, j)
  else if ok_lo then Some (lo, j)
  else if ok_hi then Some (lo + 1, j)
  else None.

(** Digits [c] and exponent [j] of the shortest decimal [c * 10^j] that
    reads back as [x], trying [n], [n+1], ... digits; 17 digits always
    suffice for a binary64 float, and there the decimal nearest to [x] is
    taken, of two equally near ones the one whose last digit is even. *)
Fixpoint shortest (fuel : nat) (x : float) (num den k n : Z) : Z * Z :=
  match fuel with
  | O => let j := k - n in
         (match j with
          | Zneg p => div_half_even (num * 10 ^ Zpos p) den
          | _ => div_half_even num (den * 10 ^ j)
          end, j)
  | S f => match candidate x num den k n with
           | Some cj => cj
           | None => shortest f x num den k (n + 1)
           end
  end.

Fixpoint strip_zeros (fuel : nat) (c j : Z) : Z * Z :=
  match fuel with
  | O => (c, j)
  | S f => if (c mod 10 =? 0) && (0 <? c)
           then strip_zeros f (c / 10) (j + 1) else (c, j)
  end.

Definition digits_of (c : Z) : string := NilZero.string_of_int (Z.to_int c).

Fixpoint zeros (n : nat) : string :=
  match n with O => EmptyString | S k => String.append "0" (zeros k) end.

(** Layout of the digits [ds] with the decimal point after [decpt] digits:
    positional for [-4 < decpt <= 16], otherwise with an exponent of at
    least two digits. *)
Definition format_short (ds : string) (decpt : Z) : string :=
  let nd := Z.of_nat (String.length ds) in
  if (-4 <? decpt) && (decpt <=? 16) then
    if decpt <=? 0 then
      String.append "0." (String.append (zeros (Z.to_nat (- decpt))) ds)
    else if nd <=? decpt then
      String.append ds (String.append (zeros (Z.to_nat (decpt - nd))) ".0")
    else
      String.append (String.substring 0 (Z.to_nat decpt) ds)
        (String.append "."
           (String.substring (Z.to_nat decpt) (Z.to_nat (nd - decpt)) ds))
  else
    let ex := decpt - 1 in
    let mant :=
      if nd <=? 1 then ds
      else String.append (String.substring 0 1 ds)
             (String.append "." (String.substring 1 (Z.to_nat (nd - 1)) ds)) in
    let es := digits_of (Z.abs ex) in
    String.append mant
      (String.append (if ex <? 0 then "e-" else "e+")
         (if Z.abs ex <? 10 then String.append "0" es else es)).

(** [repr(x)], which is also [str(x)]. *)
Definition repr (x : float) : string :=
  match x with
  | S754_nan => "nan"
  | S754_infinity s => if s then "-inf" else "inf"
  | S754_zero s => if s then "-0.0" else "0.0"
  | S754_finite s m e =>
      let '(num, den) := frac m e in
      let k := dec_exponent num den in
      let '(c0, j0) := shortest 16 (S754_finite false m e) num den k 1 in
      let '(c, j) := strip_zeros 20 c0 j0 in
      let ds := digits_of c in
      let body := format_short ds (Z.of_nat (String.length ds) + j) in
      if s then String.append "-" body else body
  end.

End F64.

Abbreviation float := F64.float.

(** ** Python values, exceptions and results *)

(** The values a cell of the update file can evaluate to, as far as the code
    tells them apart: [None], [int], [float], [str] and tuples of these. *)
#[warnings="-register-all"]
Inductive pyval :=
| VNone
| VInt (z : Z)
| VFloat (x : float)
| VStr (s : string)
| VTuple (l : list pyval).

Inductive exn :=
| TypeError
| IndexError
| ValueError
| ZeroDivisionError
| OverflowError
| KeyError
| FileNotFoundError
| SyntaxError.

Inductive result (A : Type) :=
| Ok (a : A)
| Raise (e : exn).

Arguments Ok {A} a.
Arguments Raise {A} e.

#[global] Instance result_ret : MRet result := λ A a, Ok a.
#[global] Instance result_bind : MBind result :=
  λ A B f r, match r with Ok a => f a | Raise e => Raise e end.
#[global] Instance result_fmap : FMap result :=
  λ A B f r, match r with Ok a => Ok (f a) | Raise e => Raise e end.

Definition is_Ok {A} (r : result A) : Prop := ∃ a, r = Ok a.

(** The numbers of a sensitivity list, [int] or [float]. *)
Inductive number :=
| NInt (z : Z)
| NFloat (x : float).

Definition num_val (n : number) : pyval :=
  match n with NInt z => VInt z | NFloat x => VFloat x end.

(** [str(n)] of a number. *)
Definition str_number (n : number) : string :=
  match n with
  | NInt z => F64.digits_of z
  | NFloat x => F64.repr x
  end.

(** ** Operators and built-ins on Python values *)

(** Conversion of an [int] operand to [float] in mixed arithmetic. *)
Definition float_of_int (z : Z) : result float :=
  let x := F64.of_Z z in
  if F64.is_finite x then Ok x else Raise OverflowError.

Definition as_float (v : pyval) : result float :=
  match v with
  | VInt z => float_of_int z
  | VFloat x => Ok x
  | _ => Raise TypeError
  end.

(** [a / b] on two [int]s: the float nearest to the exact quotient. *)
Definition int_truediv (a b : Z) : result float :=
  if b =? 0 then Raise ZeroDivisionError
  else
    let x := F64.of_ratio (xorb (a <? 0) (b <? 0)) (Z.abs a) (Z.to_pos (Z.abs b)) in
    if F64.is_finite x then Ok x else Raise OverflowError.

Fixpoint str_repeat (n : nat) (s : string) : string :=
  match n with O => EmptyString | S k => String.append s (str_repeat k s) end.

Definition py_sub (a b : pyval) : result pyval :=
  match a, b with
  | VInt x, VInt y => Ok (VInt (x - y))
  | VInt _, VFloat _ | VFloat _, VInt _ | VFloat _, VFloat _ =>
      x ← as_float a; y ← as_float b; Ok (VFloat (F64.sub x y))
  | _, _ => Raise TypeError
  end.

Definition py_add (a b : pyval) : result pyval :=
  match a, b with
  | VInt x, VInt y => Ok (VInt (x + y))
  | VInt _, VFloat _ | VFloat _, VInt _ | VFloat _, VFloat _ =>
      x ← as_float a; y ← as_float b; Ok (VFloat (F64.add x y))
  | VStr s, VStr t => Ok (VStr (String.append s t))
  | VTuple l, VTuple k => Ok (VTuple (l ++ k))
  | _, _ => Raise TypeError
  end.

Definition py_mul (a b : pyval) : result pyval :=
  match a, b with
  | VInt x, VInt y => Ok (VInt (x * y))
  | VInt _, VFloat _ | VFloat _, VInt _ | VFloat _, VFloat _ =>
      x ← as_float a; y ← as_float b; Ok (VFloat (F64.mul x y))
  | VStr s, VInt n | VInt n, VStr s => Ok (VStr (str_repeat (Z.to_nat n) s))
  | VTuple l, VInt n | VInt n, VTuple l =>
      Ok (VTuple (concat (replicate (Z.to_nat n) l)))
  | _, _ => Raise TypeError
  end.

Definition py_truediv (a b : pyval) : result pyval :=
  match a, b with
  | VInt x, VInt y => VFloat <$> int_truediv x y
  | VInt _, VFloat _ | VFloat _, VInt _ | VFloat _, VFloat _ =>
      x ← as_float a; y ← as_float b;
      if F64.is_zero y then Raise ZeroDivisionError else Ok (VFloat (F64.div x y))
  | _, _ => Raise TypeError
  end.

(** [round(v, 2)]. *)
Definition py_round2 (v : pyval) : result pyval :=
  match v with
  | VFloat x => Ok (VFloat (F64.round_ndigits2 x))
  | VInt z => Ok (VInt z)
  | _ => Raise TypeError
  end.

(** [v[i]] for a constant index [i >= 0]. *)
Definition py_index (v : pyval) (i : nat) : result pyval :=
  match v with
  | VTuple l => match l !! i with Some x => Ok x | None => Raise IndexError end
  | VStr s => match String.get i s with
              | Some c => Ok (VStr (String c EmptyString))
              | None => Raise IndexError
              end
  | _ => Raise TypeError
  end.

(** [sum(l)]: the items are added one by one from the left, starting from the
    [int] 0 (the plain additions of CPython up to 3.11; later versions
    compensate the rounding errors of a sum of floats). *)
Definition py_sum (l : list pyval) : result pyval :=
  foldl (λ acc x, a ← acc; py_add a x) (Ok (VInt 0)) l.

Definition isinstance_float (v : pyval) : bool :=
  match v with VFloat _ => true | _ => false end.

(** ** [utils/aq_exposures.py] *)

Definition get_aq_sensitivities (subset : bool) : list number :=
  if subset then
    [NFloat (F64.lit 2 10); NFloat (F64.lit 5 10); NInt 1; NInt 3; NInt 6;
     NInt 10; NInt 20]
  else
    [NFloat (F64.lit 2 10); NFloat (F64.lit 5 10); NInt 1; NInt 3; NInt 6;
     NInt 10; NInt 20; NInt 35].

Definition get_aqi_coeff (aqi : pyval) : result pyval :=
  d ← py_sub aqi (VInt 1); py_truediv d (VInt 4).

(** [aqi_coeff] and [aqi] default to [None], [sen] to [1.0]. *)
Definition get_aqi_cost (length aqi_coeff aqi sen : pyval) : result pyval :=
  match aqi_coeff with
  | VNone =>
      match aqi with
      | VNone => Raise ValueError
      | _ => c ← get_aqi_coeff aqi;
             p ← py_mul length c; q ← py_mul p sen; py_round2 q
      end
  | _ => p ← py_mul length aqi_coeff; q ← py_mul p sen; py_round2 q
  end.

Definition aqc_key (sen : number) : string := String.append "aqc_" (str_number sen).

(** A dictionary built entry by entry: a later entry replaces an earlier one
    of the same key. *)
Definition dict_of (entries : list (string * pyval)) : gmap string pyval :=
  foldl (λ d kv, <[kv.1 := kv.2]> d) ∅ entries.

Definition get_aqi_costs (aqi_exp : pyval) (sens : list number) (length : pyval)
  : result (gmap string pyval) :=
  a ← py_index aqi_exp 0;
  aqi_coeff ← get_aqi_coeff a;
  entries ← mapM (λ sen,
               d ← py_index aqi_exp 1;
               c ← get_aqi_cost d aqi_coeff VNone (num_val sen);
               t ← py_add length c;
               v ← py_round2 t;
               Ok (aqc_key sen, v)) sens;
  Ok (dict_of entries).

Definition get_aqi_class (aqi : float) : Z :=
  if F64.ltb aqi (F64.lit 2 1) then 1
  else if F64.ltb aqi (F64.lit 3 1) then 2
  else if F64.ltb aqi (F64.lit 4 1) then 3
  else if F64.ltb aqi (F64.lit 5 1) then 4
  else if F64.leb (F64.lit 5 1) aqi then 5
  else 0.

Definition get_mean_aqi (aqi_exp_list : list pyval) : result pyval :=
  dists ← mapM (λ aqi_exp, py_index aqi_exp 1) aqi_exp_list;
  total_dist ← py_sum dists;
  prods ← mapM (λ aqi_exp,
             a ← py_index aqi_exp 0; d ← py_index aqi_exp 1; py_mul a d)
             aqi_exp_list;
  total_aqi ← py_sum prods;
  q ← py_truediv total_aqi total_dist;
  py_round2 q.

(** *** The validators

    A validator reads one column of a data frame; the column is given as the
    list of its cells.  The validity codes are: 0 valid, 1 missing (index
    0.0), 3 out of range, 4 and 5 wrong type. *)

(** The ratio [100 * ok_count / row_count] is computed for the warning text
    only.  It lies between 0 and 100, so the division can fail in one way
    only, on a zero [row_count]. *)
Definition logged_ratio (ok_count row_count : nat) : result unit :=
  match row_count with
  | O => Raise ZeroDivisionError
  | S _ => Ok ()
  end.

Definition validate_df_aqi__validate_aqi_exp (aqi : pyval) : Z :=
  match aqi with
  | VFloat x =>
      if F64.eqb x (F64.lit 0 1) then 1
      else if F64.ltb x (F64.lit 0 1) then 3
      else 0
  | _ => 4
  end.

(** [validate_df_aqi] on the column [edge_gdf['aqi']], with
    [debug_to_file = False]. *)
Definition validate_df_aqi (aqi_col : list pyval) : result bool :=
  let aqi_validity := validate_df_aqi__validate_aqi_exp <$> aqi_col in
  let row_count := length aqi_validity in
  let aqi_ok_count := length (filter (λ c, c ≤ 1) aqi_validity) in
  if decide (row_count = aqi_ok_count) then Ok true
  else logged_ratio aqi_ok_count row_count;; Ok false.

Definition validate_df_aqi_exps__validate_aqi_exp (aqi_exp : pyval) : result Z :=
  match aqi_exp with
  | VTuple _ =>
      a ← py_index aqi_exp 0;
      match a with
      | VFloat x =>
          d ← py_index aqi_exp 1;
          match d with
          | VFloat y =>
              Ok (if F64.eqb x (F64.lit 0 1) then 1
                  else if F64.ltb x (F64.lit 0 1) then 3
                  else if F64.ltb x (F64.lit 1 1) then 3
                  else if F64.ltb y (F64.lit 0 1) then 3
                  else 0)
          | _ => Ok 4
          end
      | _ => Ok 5
      end
  | _ => Ok 5
  end.

(** [validate_df_aqi_exps] on the column [edge_gdf['aqi_exp']]. *)
Definition validate_df_aqi_exps (aqi_exp_col : list pyval) : result bool :=
  aqi_exp_validity ← mapM validate_df_aqi_exps__validate_aqi_exp aqi_exp_col;
  let row_count := length aqi_exp_validity in
  let aqi_exp_ok_count := length (filter (λ c, c ≤ 1) aqi_exp_validity) in
  if decide (row_count = aqi_exp_ok_count) then Ok true
  else logged_ratio aqi_exp_ok_count row_count;; Ok false.

(** ** Naive UTC datetimes *)

Record datetime := {
  year : Z; month : Z; day : Z;
  hour : Z; minute : Z; second : Z; microsecond : Z
}.

Definition is_leap (y : Z) : bool :=
  (y mod 4 =? 0) && (negb (y mod 100 =? 0) || (y mod 400 =? 0)).

Definition days_before_year (y : Z) : Z :=
  let y := y - 1 in y * 365 + y / 4 - y / 100 + y / 400.

Definition days_in_month (y m : Z) : Z :=
  if m =? 2 then (if is_leap y then 29 else 28)
  else if (m =? 4) || (m =? 6) || (m =? 9) || (m =? 11) then 30
  else 31.

Definition days_before_month (y m : Z) : Z :=
  nth (Z.to_nat (m - 1)) [0; 31; 59; 90; 120; 151; 181; 212; 243; 273; 304; 334] 0
  + (if (2 <? m) && is_leap y then 1 else 0).

Definition toordinal (d : datetime) : Z :=
  days_before_year (year d) + days_before_month (year d) (month d) + day d.

Definition valid_datetime (d : datetime) : bool :=
  (1 <=? year d) && (year d <=? 9999) && (1 <=? month d) && (month d <=? 12)
  && (1 <=? day d) && (day d <=? days_in_month (year d) (month d))
  && (0 <=? hour d) && (hour d <? 24) && (0 <=? minute d) && (minute d <? 60)
  && (0 <=? second d) && (second d <? 60)
  && (0 <=? microsecond d) && (microsecond d <? 1000000).

(** The timedelta [a - b], in microseconds. *)
Definition microseconds_between (a b : datetime) : Z :=
  ((toordinal a - toordinal b) * 86400
   + (hour a - hour b) * 3600 + (minute a - minute b) * 60
   + (second a - second b)) * 1000000
  + (microsecond a - microsecond b).

(** [timedelta.total_seconds()]: the microseconds divided by [10**6]. *)
Definition total_seconds (us : Z) : result float := int_truediv us 1000000.

(** [round(x)] on a float, an [int]. *)
Definition py_round_int (x : float) : result Z :=
  match F64.round_to_Z x with
  | Some n => Ok n
  | None => Raise (match x with S754_nan => ValueError | _ => OverflowError end)
  end.

Definition pad2 (n : Z) : string :=
  if n <? 10 then String.append "0" (F64.digits_of n) else F64.digits_of n.

(** [d.strftime('%Y-%m-%dT%H')]; the year is printed without padding, which
    is four digits from the year 1000 on. *)
Definition strftime_hour (d : datetime) : string :=
  String.append (F64.digits_of (year d))
    (String.append "-" (String.append (pad2 (month d))
       (String.append "-" (String.append (pad2 (day d))
          (String.append "T" (pad2 (hour d))))))).

(** ** The edge data frame and the graph handler *)

(** An edge key [(u, v, key)]. *)
Definition uvkey : Type := Z * Z * Z.

(** The edge data frame, as far as the updater reads it: a row per edge with
    its [uvkey] and, once an update was merged, its [aqi_exp]. *)
Inductive DataFrame :=
| Edges (keys : list uvkey)
| EdgesExp (rows : list (uvkey * pyval)).

Definition df_keys (df : DataFrame) : list uvkey :=
  match df with Edges keys => keys | EdgesExp rows => rows.*1 end.

(** ['aqi_exp' in df.columns] *)
Definition has_aqi_exp (df : DataFrame) : bool :=
  match df with Edges _ => false | EdgesExp _ => true end.

(** [df['aqi_exp']] *)
Definition col_aqi_exp (df : DataFrame) : result (list pyval) :=
  match df with Edges _ => Raise KeyError | EdgesExp rows => Ok rows.*2 end.

(** [df.drop(columns=['aqi_exp'])] *)
Definition drop_aqi_exp (df : DataFrame) : DataFrame := Edges (df_keys df).

(** [left.merge(updates, on='uvkey', how='left')] for a [left] without
    [aqi_exp]: the rows of [left] in their order, each with the exposures of
    the update rows of its key, or with NaN when there is none. *)
Definition merge_left (left : DataFrame) (updates : list (uvkey * pyval))
  : DataFrame :=
  EdgesExp
    (df_keys left ≫= λ k,
       match filter (λ r, r.1 = k) updates with
       | [] => [(k, VFloat F64.nan)]
       | matches => matches
       end).

(** Modelled from the spec: [utils/graph_handler.py] is not among the
    sources.  The handler holds the shared edge dataset: the edge data frame
    and the graph that the path finder reads.  The spec does not say what the
    handler writes on the graph when it is handed attributes, so the graph is
    a parameter of the model: it is represented by the attribute updates it
    has received since it was loaded, in order, each being the rows, a key
    with a dictionary of attributes, that one call handed over.  Two graphs
    are equal when they received the same updates. *)
Record GraphHandler := {
  edge_gdf : DataFrame;
  graph : list (list (uvkey * gmap string pyval))
}.

(** Modelled from the spec: the edge data frame is replaced as a whole. *)
Definition set_edge_gdf (g : GraphHandler) (df : DataFrame) : GraphHandler :=
  {| edge_gdf := df; graph := graph g |}.

(** Modelled from the spec: [update_edge_attr_to_graph] with [from_dict=True]
    is handed rows of a key and a dictionary of attributes.  Nothing is
    assumed of what the handler writes: the graph after the call is the
    graph before it with this update received. *)
Definition update_edge_attr_to_graph (g : GraphHandler)
    (rows : list (uvkey * gmap string pyval)) : GraphHandler :=
  {| edge_gdf := edge_gdf g; graph := graph g ++ [rows] |}.

(** ** [utils/graph_aqi_updater.py] *)

Record GraphAqiUpdater := {
  G : GraphHandler;
  sens : list number;
  aqi_update_status : string;
  aqi_data_wip : string;
  aqi_data_latest : string;
  aqi_data_updatetime : option datetime
}.

(** What a call of a method finds outside the process: the clock when the
    call starts and when an update completes; the exception that listing
    [aqi_dir] raises, when the directory is missing or cannot be read; and
    the files of [aqi_dir], each with what reading it yields (its rows
    [(uvkey, aqi_exp)], or the exception of a failed read or parse). *)
Record World := {
  utcnow : datetime;
  utcnow_after : datetime;
  aqi_dir_error : option exn;
  aqi_dir_files : list (string * result (list (uvkey * pyval)))
}.

(** [listdir(self.aqi_dir)] *)
Definition listdir (w : World) : result (list string) :=
  match aqi_dir_error w with
  | Some e => Raise e
  | None => Ok (aqi_dir_files w).*1
  end.

Definition read_csv (w : World) (name : string)
  : result (list (uvkey * pyval)) :=
  match filter (λ f, f.1 = name) (aqi_dir_files w) with
  | f :: _ => f.2
  | [] => Raise FileNotFoundError
  end.

(** A method runs on the updater object: it ends in a value or an exception,
    leaves the object in a final state, and on its way stores new values of
    the shared dataset [G], listed in [seen] in the order they became
    visible to readers.  Logging and the pause of a minute after a failed
    update are not modelled. *)
Record Outcome (A : Type) := {
  seen : list GraphHandler;
  final : GraphAqiUpdater;
  res : result A
}.

Arguments seen {A} _.
Arguments final {A} _.
Arguments res {A} _.

Definition Method (A : Type) : Type := GraphAqiUpdater → Outcome A.

#[global] Instance method_ret : MRet Method :=
  λ A a self, {| seen := []; final := self; res := Ok a |}.

#[global] Instance method_bind : MBind Method :=
  λ A B k m self,
    let o := m self in
    match res o with
    | Ok a =>
        let o' := k a (final o) in
        {| seen := seen o ++ seen o'; final := final o'; res := res o' |}
    | Raise e => {| seen := seen o; final := final o; res := Raise e |}
    end.

Definition get_self : Method GraphAqiUpdater :=
  λ self, {| seen := []; final := self; res := Ok self |}.

Definition lift {A} (r : result A) : Method A :=
  λ self, {| seen := []; final := self; res := r |}.

Definition modify (f : GraphAqiUpdater → GraphAqiUpdater) : Method () :=
  λ self, {| seen := []; final := f self; res := Ok () |}.

Definition set_G (g : GraphHandler) (self : GraphAqiUpdater) :=
  {| G := g; sens := sens self;
     aqi_update_status := aqi_update_status self;
     aqi_data_wip := aqi_data_wip self;
     aqi_data_latest := aqi_data_latest self;
     aqi_data_updatetime := aqi_data_updatetime self |}.

(** A store to the shared dataset. *)
Definition store_G (g : GraphHandler) : Method () :=
  λ self, {| seen := [g]; final := set_G g self; res := Ok () |}.

(** [try: m except Exception: handler] *)
Definition try_except {A} (m : Method A) (handler : exn → Method A) : Method A :=
  λ self,
    let o := m self in
    match res o with
    | Ok a => o
    | Raise e =>
        let o' := handler e (final o) in
        {| seen := seen o ++ seen o'; final := final o'; res := res o' |}
    end.

Definition set_aqi_update_status (s : string) (self : GraphAqiUpdater) :=
  {| G := G self; sens := sens self; aqi_update_status := s;
     aqi_data_wip := aqi_data_wip self;
     aqi_data_latest := aqi_data_latest self;
     aqi_data_updatetime := aqi_data_updatetime self |}.

Definition set_aqi_data_wip (s : string) (self : GraphAqiUpdater) :=
  {| G := G self; sens := sens self;
     aqi_update_status := aqi_update_status self;
     aqi_data_wip := s;
     aqi_data_latest := aqi_data_latest self;
     aqi_data_updatetime := aqi_data_updatetime self |}.

(** The three assignments that end a successful update. *)
Definition set_updated (t : datetime) (csv : string) (self : GraphAqiUpdater) :=
  {| G := G self; sens := sens self;
     aqi_update_status := aqi_update_status self;
     aqi_data_wip := "";
     aqi_data_latest := csv;
     aqi_data_updatetime := Some t |}.

(** [GraphAqiUpdater(logger, G)], with the scheduler not modelled. *)
Definition init (g : GraphHandler) : GraphAqiUpdater :=
  {| G := g; sens := get_aq_sensitivities false;
     aqi_update_status := ""; aqi_data_wip := ""; aqi_data_latest := "";
     aqi_data_updatetime := None |}.

Definition get_expected_aqi_data_name (w : World) : string :=
  String.append "aqi_" (String.append (strftime_hour (utcnow w)) ".csv").

Definition get_aqi_updated_since_secs (w : World) (self : GraphAqiUpdater)
  : result (option Z) :=
  match aqi_data_updatetime self with
  | Some t =>
      updated_since_secs ← total_seconds (microseconds_between (utcnow w) t);
      n ← py_round_int updated_since_secs;
      Ok (Some n)
  | None => Ok None
  end.

Definition bool_graph_aqi_is_up_to_date (w : World) (self : GraphAqiUpdater)
  : result bool :=
  match aqi_data_updatetime self with
  | None => Ok false
  | Some _ =>
      secs ← get_aqi_updated_since_secs w self;
      match secs with
      | Some n => Ok (if n <? 60 * 70 then true else false)
      | None => Raise TypeError
      end
  end.

(** The directory is listed only when the expected file is neither the
    latest one nor the one in progress. *)
Definition new_aqi_data_available (w : World) : Method (option string) :=
  self ← get_self;
  let aqi_data_expected := get_expected_aqi_data_name w in
  '(aqi_update_status', new_aqi_available) ←
    (if decide (aqi_data_expected = aqi_data_latest self) then
       mret ("latest AQI was updated to graph", None)
     else if decide (aqi_data_expected = aqi_data_wip self) then
       mret ("AQI update already in progress", None)
     else
       names ← lift (listdir w);
       if decide (aqi_data_expected ∈ names) then
         mret (String.append "AQI update will be done from: " aqi_data_expected,
               Some aqi_data_expected)
       else
         mret (String.append "expected AQI data is not available ("
                 (String.append aqi_data_expected ")"), None));
  (if decide (aqi_update_status' ≠ aqi_update_status self)
   then modify (set_aqi_update_status aqi_update_status')
   else mret ());;
  mret new_aqi_available.

Definition get_aq_update_attrs (self : GraphAqiUpdater) (aqi_exp : pyval)
  : result (gmap string pyval) :=
  length ← py_index aqi_exp 1;
  aq_costs ← get_aqi_costs aqi_exp (sens self) length;
  aqi ← py_index aqi_exp 0;
  Ok (aq_costs ∪ {[ "aqi" := aqi ]}).

Definition validate_aqi_exps__validate_aqi_exp (aqi_exp : pyval) : result bool :=
  match aqi_exp with
  | VTuple _ =>
      a ← py_index aqi_exp 0;
      if negb (isinstance_float a) then Ok false
      else
        d ← py_index aqi_exp 1;
        if negb (isinstance_float d) then Ok false else Ok true
  | _ => Ok false
  end.

Definition validate_aqi_exps (edge_gdf : DataFrame) : result bool :=
  aqi_exp_col ← col_aqi_exp edge_gdf;
  exp_ok ← mapM validate_aqi_exps__validate_aqi_exp aqi_exp_col;
  let row_count := length exp_ok in
  let aqi_exp_count := length (filter (λ b, b = true) exp_ok) in
  Ok (if decide (row_count = aqi_exp_count) then true else false).

Definition read_update_aqi_to_graph (w : World) (aqi_updates_csv : string)
  : Method () :=
  modify (set_aqi_data_wip aqi_updates_csv);;
  edge_aqi_updates ← lift (read_csv w aqi_updates_csv);
  (* the counts of distinct keys are compared, a mismatch is only logged *)
  aqi_data_ok ← lift (validate_aqi_exps (EdgesExp edge_aqi_updates));
  self ← get_self;
  let edge_gdf_copy := edge_gdf (G self) in
  let edge_gdf_copy :=
    if has_aqi_exp edge_gdf_copy
    then merge_left (drop_aqi_exp edge_gdf_copy) edge_aqi_updates
    else merge_left edge_gdf_copy edge_aqi_updates in
  store_G (set_edge_gdf (G self) edge_gdf_copy);;
  self ← get_self;
  aqi_edge_updates_ok ← lift (validate_aqi_exps (edge_gdf (G self)));
  aq_updates ← lift (mapM (get_aq_update_attrs self) edge_aqi_updates.*2);
  store_G (update_edge_attr_to_graph (G self)
             (zip edge_aqi_updates.*1 aq_updates));;
  modify (set_updated (utcnow_after w) aqi_updates_csv).

Definition maybe_read_update_aqi_to_graph (w : World) : Method () :=
  new_aqi_data_csv ← new_aqi_data_available w;
  match new_aqi_data_csv with
  | Some csv =>
      try_except (read_update_aqi_to_graph w csv)
        (λ _, modify (set_aqi_update_status
                        (String.append "could not complete AQI update from: " csv)))
  | None => mret ()
  end.

(** ** The other functions of [utils/aq_exposures.py] *)

Definition isinstance_tuple (v : pyval) : bool :=
  match v with VTuple _ => true | _ => false end.

(** [sen] defaults to [1.0]. *)
Definition get_aqi_cost_from_exp (aqi_exp sen : pyval) : result pyval :=
  d ← py_index aqi_exp 1;
  a ← py_index aqi_exp 0;
  c ← get_aqi_coeff a;
  p ← py_mul d c; q ← py_mul p sen; py_round2 q.

(** [sen] defaults to the [int] 1. *)
Definition get_total_aqi_cost_from_exps (aqi_exp_list : list pyval) (sen : pyval)
  : result pyval :=
  costs ← mapM (λ aqi_exp, get_aqi_cost_from_exp aqi_exp sen) aqi_exp_list;
  py_sum costs.

(** The edge dictionary is a map from attribute names to values; of the geometry of
    the link only its [length], a float, is read. *)
Definition get_link_edge_aqi_cost_estimates (sens : list number)
    (edge_dict : gmap string pyval) (link_geom_length : float)
  : result (gmap string pyval) :=
  match edge_dict !! "aqi_exp" with
  | None => Ok ∅
  | Some aqi_exp =>
      if negb (isinstance_tuple aqi_exp) then Ok ∅
      else
        a ← py_index aqi_exp 0;
        if negb (isinstance_float a) then Ok ∅
        else
          let link_aqi_exp :=
            VTuple [a; VFloat (F64.round_ndigits2 link_geom_length)] in
          aqi_costs ← get_aqi_costs link_aqi_exp sens (VFloat link_geom_length);
          Ok (aqi_costs ∪ {[ "aqi_exp" := link_aqi_exp ]})
  end.

(** The functions on classes take exposures of two floats, as their
    signatures say. *)
Definition get_aqi_class_exp_list (aqi_exp_list : list (float * float))
  : list (Z * float) :=
  (λ aqi_exp, (get_aqi_class aqi_exp.1, aqi_exp.2)) <$> aqi_exp_list.

(** One step of the first loop of [aggregate_aqi_class_exps]. *)
Definition add_class_exp (aqi_cl_exps : gmap Z float) (aqi_cl_exp : Z * float)
  : gmap Z float :=
  let aqi_cl := aqi_cl_exp.1 in
  let aqi_exp := aqi_cl_exp.2 in
  match aqi_cl_exps !! aqi_cl with
  | Some x => <[aqi_cl := F64.add x aqi_exp]> aqi_cl_exps
  | None => <[aqi_cl := aqi_exp]> aqi_cl_exps
  end.

Definition aggregate_aqi_class_exps (aqi_exp_list : list (float * float))
  : gmap Z float :=
  let aqi_cl_exp_list := get_aqi_class_exp_list aqi_exp_list in
  let aqi_cl_exps := foldl add_class_exp ∅ aqi_cl_exp_list in
  F64.round_ndigits2 <$> aqi_cl_exps.

(** The percentage of one class: [round(exposure*100/length, 2)]. *)
Definition class_pct (length : float) (aqi_cl_exp : float) : result float :=
  if F64.is_zero length then Raise ZeroDivisionError
  else Ok (F64.round_ndigits2
             (F64.div (F64.mul aqi_cl_exp (F64.lit 100 1)) length)).

(** The loop goes through the keys of the dictionary; the order of the keys has no
    part in the outcome. *)
Definition get_aqi_class_pcts (aqi_cl_exps : gmap Z float) (length : float)
  : result (gmap Z float) :=
  entries ← mapM (λ kv, pct ← class_pct length kv.2; Ok (kv.1, pct))
               (map_to_list aqi_cl_exps);
  Ok (list_to_map entries).

(** ** The status response of the updater *)

(** [d.strftime('%y/%m/%d %H:%M:%S')] *)
Definition strftime_short (d : datetime) : string :=
  String.append (pad2 (year d mod 100))
    (String.append "/" (String.append (pad2 (month d))
       (String.append "/" (String.append (pad2 (day d))
          (String.append " " (String.append (pad2 (hour d))
             (String.append ":" (String.append (pad2 (minute d))
                (String.append ":" (pad2 (second d))))))))))).

Definition get_aqi_update_time_str (self : GraphAqiUpdater) : option string :=
  match aqi_data_updatetime self with
  | Some t => Some (strftime_short t)
  | None => None
  end.

(** The dictionary of the response, with its four keys as fields. *)
Record StatusResponse := {
  b_updated : bool;
  latest_data : string;
  update_time_utc : option string;
  updated_since_secs : option Z
}.

(** The clock is read twice, by the freshness query and by the seconds of the
    last field: [w] and [w'] are what the two readings find. *)
Definition get_aqi_update_status_response (w w' : World)
    (self : GraphAqiUpdater) : result StatusResponse :=
  b ← bool_graph_aqi_is_up_to_date w self;
  secs ← get_aqi_updated_since_secs w' self;
  Ok {| b_updated := b;
        latest_data := aqi_data_latest self;
        update_time_utc := get_aqi_update_time_str self;
        updated_since_secs := secs |}.

(** ** Notions of the statements

    The classes, the coefficient and the weighted mean follow the words of
    the specification, for the theorems to compare them with the code; the
    other definitions name what the theorems say about a run of the code. *)

(** The classes as the half-open ranges [[1,2)], [[2,3)], [[3,4)], [[4,5)]
    and [[5,∞)]. *)
Inductive aqi_class_range (p : float) : Z → Prop :=
| range_1 : F64.leb (F64.lit 1 1) p = true → F64.ltb p (F64.lit 2 1) = true →
            aqi_class_range p 1
| range_2 : F64.leb (F64.lit 2 1) p = true → F64.ltb p (F64.lit 3 1) = true →
            aqi_class_range p 2
| range_3 : F64.leb (F64.lit 3 1) p = true → F64.ltb p (F64.lit 4 1) = true →
            aqi_class_range p 3
| range_4 : F64.leb (F64.lit 4 1) p = true → F64.ltb p (F64.lit 5 1) = true →
            aqi_class_range p 4
| range_5 : F64.leb (F64.lit 5 1) p = true → aqi_class_range p 5.

(** An exposure pair [(index, distance)] of two floats, as a Python value. *)
Definition exposure (p : float * float) : pyval :=
  VTuple [VFloat p.1; VFloat p.2].

(** The sum of floats, accumulated from the left on [0.0]. *)
Definition fsum (xs : list float) : float := foldl F64.add (F64.lit 0 1) xs.

(** The distance-weighted average [Σ(index × distance) / Σ distance]. *)
Definition weighted_mean (l : list (float * float)) : float :=
  F64.div (fsum ((λ p, F64.mul p.1 p.2) <$> l)) (fsum (l.*2)).

(** The coefficient [(index - 1) / 4]. *)
Definition coefficient (index : float) : float :=
  F64.div (F64.sub index (F64.lit 1 1)) (F64.lit 4 1).

(** [round(length × coeff × sen, 2)] on Python values, as the claim words
    the cost: the two products from the left, then the rounding. *)
Definition rounded_product (length coeff sen : pyval) : result pyval :=
  p ← py_mul length coeff; q ← py_mul p sen; py_round2 q.

(** The float a number stands for in a product with a float, and whether
    the number has one: an [int] too large for a float has none. *)
Definition num_float (s : number) : float :=
  match s with NInt z => F64.of_Z z | NFloat x => x end.

Definition convertible (s : number) : bool :=
  match s with NInt z => F64.is_finite (F64.of_Z z) | NFloat _ => true end.

(** The coefficient [(index - 1) / 4] of an index that is an [int] or a
    [float]: for an [int] the difference is exact and the quotient is the
    float nearest to it. *)
Definition coefficient_of (index : number) : float :=
  match index with
  | NFloat x => coefficient x
  | NInt z => F64.of_ratio (z - 1 <? 0) (Z.abs (z - 1)) 4
  end.

(** Whether an index has a coefficient: the quotient of an [int] beyond the
    range of floats has none. *)
Definition has_coefficient (index : number) : bool :=
  match index with
  | NFloat _ => true
  | NInt _ => F64.is_finite (coefficient_of index)
  end.

(** The value of the column of the sensitivity [s] for an exposure and a
    base length of numbers. *)
Definition cost_of_numbers (index distance length s : number) : float :=
  F64.round_ndigits2
    (F64.add (num_float length)
       (F64.round_ndigits2
          (F64.mul (F64.mul (num_float distance) (coefficient_of index))
             (num_float s)))).

(** The entry of the sensitivity [s] in the fan-out of an exposure
    [(index, distance)] on the base length [length]: the cost of the
    exposure, rounded, plus the base length, rounded again. *)
Definition cost_entry (index distance length : float) (s : number)
  : string * pyval :=
  (aqc_key s,
   VFloat (F64.round_ndigits2
             (F64.add length
                (F64.round_ndigits2
                   (F64.mul (F64.mul distance (coefficient index))
                      (num_float s)))))).

(** Two states of the updater agree on everything but the status text. *)
Definition same_but_status (a b : GraphAqiUpdater) : Prop :=
  G a = G b ∧ sens a = sens b ∧ aqi_data_wip a = aqi_data_wip b
  ∧ aqi_data_latest a = aqi_data_latest b
  ∧ aqi_data_updatetime a = aqi_data_updatetime b.

(** The batch of a file as it reaches the merge: read, and passed through
    the first validation, whose verdict is only logged. *)
Definition incoming_batch (w : World) (csv : string)
  : result (list (uvkey * pyval)) :=
  updates ← read_csv w csv;
  validate_aqi_exps (EdgesExp updates);;
  Ok updates.

(** The time of the last update, if there is one, is a datetime. *)
Definition valid_updatetime (self : GraphAqiUpdater) : bool :=
  match aqi_data_updatetime self with
  | Some t => valid_datetime t
  | None => true
  end.

(** A value that is zero: the [int] 0, or [0.0] or [-0.0]. *)
Definition zero_value (v : pyval) : bool :=
  match v with
  | VInt z => z =? 0
  | VFloat x => F64.is_zero x
  | _ => false
  end.

(** The distances of the exposures whose index falls in the class [c], in the
    order of the list. *)
Definition class_distances (c : Z) (l : list (float * float)) : list float :=
  (filter (λ p, get_aqi_class p.1 = c) l).*2.

(** The share [round(x*100/length, 2)] of an exposure [x]. *)
Definition pct_of (length x : float) : float :=
  F64.round_ndigits2 (F64.div (F64.mul x (F64.lit 100 1)) length).

(** A cell that is a float and is not below zero. *)
Definition aqi_accepted (v : pyval) : bool :=
  match v with
  | VFloat x => negb (F64.ltb x (F64.lit 0 1))
  | _ => false
  end.

(** A record that starts with two floats, an index and a distance, where the
    index equals zero, or the index is not below 1 and the distance not
    below 0. *)
Definition aqi_exp_accepted (v : pyval) : bool :=
  match v with
  | VTuple (VFloat x :: VFloat y :: _) =>
      F64.eqb x (F64.lit 0 1)
      || negb (F64.ltb x (F64.lit 1 1)) && negb (F64.ltb y (F64.lit 0 1))
  | _ => false
  end.

(** ** Concrete runs

    A graph of two edges as it was loaded, and the directory at 17:05 and
    at 18:05 UTC of 11 November 2019 with the file of the hour. *)

Definition edge_a : uvkey := (1, 2, 0).
Definition edge_b : uvkey := (2, 3, 0).

Definition two_edges : GraphHandler :=
  {| edge_gdf := Edges [edge_a; edge_b];
     graph := [] |}.

Definition on_2019_11_11 (h mi s us : Z) : datetime :=
  {| year := 2019; month := 11; day := 11;
     hour := h; minute := mi; second := s; microsecond := us |}.

Definition file_17 : string := "aqi_2019-11-11T17.csv".
Definition file_18 : string := "aqi_2019-11-11T18.csv".

(** The file of 17 h gives edge [edge_a] the exposure [(3.0, 10.0)]. *)
Definition world_17 : World :=
  {| utcnow := on_2019_11_11 17 5 0 0;
     utcnow_after := on_2019_11_11 17 5 2 0;
     aqi_dir_error := None;
     aqi_dir_files :=
       [(file_17, Ok [(edge_a, exposure (F64.lit 3 1, F64.lit 10 1))])] |}.

(** The file of 17 h gives edge [edge_a] the exposure [(2.5, None)]. *)
Definition world_17_no_distance : World :=
  {| utcnow := on_2019_11_11 17 5 0 0;
     utcnow_after := on_2019_11_11 17 5 2 0;
     aqi_dir_error := None;
     aqi_dir_files :=
       [(file_17, Ok [(edge_a, VTuple [VFloat (F64.lit 25 10); VNone])])] |}.

(** One hour later, with the file of 18 h next to the one of 17 h. *)
Definition world_18 : World :=
  {| utcnow := on_2019_11_11 18 5 0 0;
     utcnow_after := on_2019_11_11 18 5 2 0;
     aqi_dir_error := None;
     aqi_dir_files :=
       [(file_17, Ok [(edge_a, exposure (F64.lit 3 1, F64.lit 10 1))]);
        (file_18, Ok [(edge_a, exposure (F64.lit 4 1, F64.lit 10 1))])] |}.

(** The updater while the file of 17 h is in progress. *)
Definition updating_17 : GraphAqiUpdater :=
  set_aqi_data_wip file_17 (init two_edges).

(** The updater after the cycle of 17:05, which completes at 17:05:02. *)
Definition updated_17 : GraphAqiUpdater :=
  final (read_update_aqi_to_graph world_17 file_17 (init two_edges)).

(** The world at a time of that day, for a query. *)
Definition world_at (h mi s us : Z) : World :=
  {| utcnow := on_2019_11_11 h mi s us;
     utcnow_after := on_2019_11_11 h mi s us;
     aqi_dir_error := None;
     aqi_dir_files := [] |}.

(** 17:05 with no directory to list. *)
Definition world_17_no_dir : World :=
  {| utcnow := on_2019_11_11 17 5 0 0;
     utcnow_after := on_2019_11_11 17 5 2 0;
     aqi_dir_error := Some FileNotFoundError;
     aqi_dir_files := [] |}.

(** * Properties *)

(** ** Comparisons of floats *)

Section FloatOrder.

Local Ltac order_cases :=
  repeat match goal with
    | |- context [Pos.compare_cont Eq ?p ?q] =>
        rewrite (Pos.compare_cont_spec p q Eq); simpl Pos.switch_Eq
    | H : context [Pos.compare_cont Eq ?p ?q] |- _ =>
        rewrite (Pos.compare_cont_spec p q Eq) in H; simpl Pos.switch_Eq in H
    end;
  repeat match goal with
    | |- context [(?a ?= ?b)%Z] => destruct (Z.compare_spec a b)
    | H : context [(?a ?= ?b)%Z] |- _ => destruct (Z.compare_spec a b)
    | |- context [(?a ?= ?b)%positive] => destruct (Pos.compare_spec a b)
    | H : context [(?a ?= ?b)%positive] |- _ => destruct (Pos.compare_spec a b)
    end;
  simpl in *; try done; try lia.

(** [x < y] fails whenever [y <= x] holds. *)
Lemma ltb_false_of_leb (x y : float) :
  F64.leb y x = true → F64.ltb x y = false.
Proof.
  unfold F64.leb, F64.ltb, SFleb, SFltb.
  destruct x as [sx|sx| |sx mx ex], y as [sy|sy| |sy my ey]; simpl;
    try destruct sx; try destruct sy; simpl; try done; order_cases.
Qed.

(** The order of floats is transitive. *)
Lemma leb_trans (x y z : float) :
  F64.leb x y = true → F64.leb y z = true → F64.leb x z = true.
Proof.
  unfold F64.leb, SFleb.
  destruct x as [sx|sx| |sx mx ex], y as [sy|sy| |sy my ey],
    z as [sz|sz| |sz mz ez]; simpl;
    try destruct sx; try destruct sy; try destruct sz; simpl; try done;
    order_cases.
Qed.

(** A float that is at least [c] is not below a constant [b <= c]. *)
Lemma not_below (x b c : float) :
  F64.leb b c = true → F64.leb c x = true → F64.ltb x b = false.
Proof.
  intros Hbc Hcx. apply ltb_false_of_leb. by apply (leb_trans b c x).
Qed.

End FloatOrder.

(** ** The classes of pollution indices *)

(** C9: a pollution index in one of the half-open ranges [[1,2)], [[2,3)],
    [[3,4)], [[4,5)], [[5,∞)] is classified as 1, 2, 3, 4, 5 respectively. *)
Theorem get_aqi_class_ranges (p : float) (k : Z) :
  aqi_class_range p k → get_aqi_class p = k.
Proof.
  destruct 1 as [_ H2|H1 H2|H1 H2|H1 H2|H1]; unfold get_aqi_class;
    set (two := F64.lit 2 1) in *; set (three := F64.lit 3 1) in *;
    set (four := F64.lit 4 1) in *; set (five := F64.lit 5 1) in *.
  - by rewrite H2.
  - by rewrite (not_below p two two eq_refl H1), H2.
  - by rewrite (not_below p two three eq_refl H1),
      (not_below p three three eq_refl H1), H2.
  - by rewrite (not_below p two four eq_refl H1),
      (not_below p three four eq_refl H1),
      (not_below p four four eq_refl H1), H2.
  - by rewrite (not_below p two five eq_refl H1),
      (not_below p three five eq_refl H1),
      (not_below p four five eq_refl H1),
      (not_below p five five eq_refl H1), H1.
Qed.

(** The classes of 1.5, 2.0, 4.999 and 5.0 are 1, 2, 4 and 5. *)
Lemma get_aqi_class_ranges_witness :
  get_aqi_class (F64.lit 15 10) = 1 ∧ get_aqi_class (F64.lit 2 1) = 2
  ∧ get_aqi_class (F64.lit 4999 1000) = 4 ∧ get_aqi_class (F64.lit 5 1) = 5.
Proof.
  split; [|split; [|split]]; apply get_aqi_class_ranges.
  - apply range_1; reflexivity.
  - apply range_2; reflexivity.
  - apply range_4; reflexivity.
  - apply range_5; reflexivity.
Defined.

(** Below 1, at zero and for negative indices the class is 1; NaN gets the
    class 0 of the last branch. *)
Example get_aqi_class_outside :
  get_aqi_class (F64.lit 5 10) = 1 ∧ get_aqi_class (F64.lit 0 1) = 1
  ∧ get_aqi_class (F64.lit (-3) 1) = 1 ∧ get_aqi_class F64.nan = 0.
Proof. repeat split; reflexivity. Qed.

(** ** The single-cost operation *)

Section ExceptionsOfOperators.

Local Ltac by_cases :=
  intros; unfold py_sub, py_mul, py_add, py_truediv, py_round2, as_float,
    float_of_int, int_truediv, mbind, result_bind, fmap, result_fmap;
  simpl; repeat case_match; simpl in *; congruence.

Lemma py_mul_not_ValueError a b : py_mul a b ≠ Raise ValueError.
Proof. destruct a, b; by_cases. Qed.

Lemma py_sub_not_ValueError a b : py_sub a b ≠ Raise ValueError.
Proof. destruct a, b; by_cases. Qed.

Lemma py_truediv_not_ValueError a b : py_truediv a b ≠ Raise ValueError.
Proof. destruct a, b; by_cases. Qed.

Lemma py_round2_not_ValueError a : py_round2 a ≠ Raise ValueError.
Proof. destruct a; by_cases. Qed.

Lemma bind_not_ValueError {A B} (r : result A) (k : A → result B) :
  r ≠ Raise ValueError → (∀ a, k a ≠ Raise ValueError) →
  (r ≫= k) ≠ Raise ValueError.
Proof.
  destruct r as [a|e]; unfold mbind, result_bind; simpl.
  - intros _ Hk. apply Hk.
  - intros He _ [= ->]. by apply He.
Qed.

Lemma get_aqi_coeff_not_ValueError aqi : get_aqi_coeff aqi ≠ Raise ValueError.
Proof.
  apply bind_not_ValueError; [apply py_sub_not_ValueError|].
  intros d. apply py_truediv_not_ValueError.
Qed.

(** The product [length * coeff * sen] rounded to two decimals. *)
Lemma rounded_product_not_ValueError length coeff sen :
  (p ← py_mul length coeff; q ← py_mul p sen; py_round2 q) ≠ Raise ValueError.
Proof.
  apply bind_not_ValueError; [apply py_mul_not_ValueError|]. intros p.
  apply bind_not_ValueError; [apply py_mul_not_ValueError|]. intros q.
  apply py_round2_not_ValueError.
Qed.

End ExceptionsOfOperators.

(** C10: for every length and sensitivity, when a coefficient [c] is given,
    the cost is [round(l * c * s, 2)] whatever is given as the raw index [a],
    so it is the same for every [a]; for floats this is the rounded product
    of the floats.  Without a coefficient the cost is computed from the
    coefficient of the index.  [ValueError] is raised exactly when both are
    [None]. *)
Theorem get_aqi_cost_coeff_precedence :
  (∀ length aqi_coeff aqi sen : pyval,
     aqi_coeff ≠ VNone →
     get_aqi_cost length aqi_coeff aqi sen
     = rounded_product length aqi_coeff sen)
  ∧ (∀ length aqi_coeff aqi aqi' sen : pyval,
     aqi_coeff ≠ VNone →
     get_aqi_cost length aqi_coeff aqi sen
     = get_aqi_cost length aqi_coeff aqi' sen)
  ∧ (∀ l c a s : float,
     get_aqi_cost (VFloat l) (VFloat c) (VFloat a) (VFloat s)
     = Ok (VFloat (F64.round_ndigits2 (F64.mul (F64.mul l c) s))))
  ∧ (∀ (l c a : float) (s : Z),
     get_aqi_cost (VFloat l) (VFloat c) (VFloat a) (VInt s)
     = (x ← float_of_int s;
        Ok (VFloat (F64.round_ndigits2 (F64.mul (F64.mul l c) x)))))
  ∧ (∀ length aqi sen : pyval,
     aqi ≠ VNone →
     get_aqi_cost length VNone aqi sen
     = (c ← get_aqi_coeff aqi; rounded_product length c sen))
  ∧ (∀ length aqi_coeff aqi sen : pyval,
     get_aqi_cost length aqi_coeff aqi sen = Raise ValueError
     ↔ aqi_coeff = VNone ∧ aqi = VNone).
Proof.
  assert (Hc : ∀ length aqi_coeff aqi sen : pyval,
            aqi_coeff ≠ VNone →
            get_aqi_cost length aqi_coeff aqi sen
            = rounded_product length aqi_coeff sen).
  { intros length aqi_coeff aqi sen Hcoeff. by destruct aqi_coeff. }
  split; [exact Hc|]. split.
  { intros length aqi_coeff aqi aqi' sen Hcoeff. by rewrite !Hc. }
  split; [done|]. split.
  { intros l c a s. simpl. by destruct (float_of_int s). }
  split.
  { intros length aqi sen Haqi. by destruct aqi. }
  intros length aqi_coeff aqi sen. split.
  - intros H.
    destruct aqi_coeff; try (by apply rounded_product_not_ValueError in H).
    destruct aqi; try done; exfalso; revert H;
      (apply bind_not_ValueError; [apply get_aqi_coeff_not_ValueError|]);
      intros c; apply rounded_product_not_ValueError.
  - by intros [-> ->].
Qed.

(** With the coefficient 2 next to a raw index that is no number, the cost
    of the length 10 for the sensitivity 3 is [round(10 * 2 * 3, 2)], the
    [int] 60. *)
Lemma get_aqi_cost_coeff_precedence_witness :
  get_aqi_cost (VInt 10) (VInt 2) (VStr "x") (VInt 3)
  = rounded_product (VInt 10) (VInt 2) (VInt 3)
  ∧ rounded_product (VInt 10) (VInt 2) (VInt 3) = Ok (VInt 60).
Proof.
  split; [|reflexivity].
  destruct get_aqi_cost_coeff_precedence as [Hc _]. by apply Hc.
Defined.

(** [cost(length=10, pollutionIndex=3, sensitivity=1) = 5.0], and the raw
    index is ignored next to a coefficient: with the coefficient 0.5 the
    index 1.0, whose own coefficient is 0, still gives 5.0. *)
Example get_aqi_cost_examples :
  get_aqi_cost (VInt 10) VNone (VInt 3) (VInt 1) = Ok (VFloat (F64.lit 5 1))
  ∧ get_aqi_cost (VInt 10) (VInt 2) (VStr "x") (VInt 3) = Ok (VInt 60)
  ∧ get_aqi_cost (VInt 10) (VFloat (F64.lit 5 10)) (VInt 1) (VInt 1)
    = Ok (VFloat (F64.lit 5 1))
  ∧ get_aqi_cost (VFloat (F64.lit 10 1)) (VFloat (F64.lit 5 10))
      (VFloat (F64.lit 1 1)) (VFloat (F64.lit 1 1)) = Ok (VFloat (F64.lit 5 1))
  ∧ get_aqi_cost (VFloat (F64.lit 10 1)) VNone
      (VFloat (F64.lit 1 1)) (VFloat (F64.lit 1 1)) = Ok (VFloat (F64.lit 0 1)).
Proof. repeat split; vm_compute; reflexivity. Qed.

(** ** Lists of results *)

Section ResultLists.

Context {A B : Type} (f : A → result B).

Lemma mapM_cons x l :
  mapM f (x :: l) = (y ← f x; k ← mapM f l; Ok (y :: k)).
Proof. reflexivity. Qed.

Lemma mapM_Ok l k : mapM f l = Ok k ↔ Forall2 (λ x y, f x = Ok y) l k.
Proof.
  revert k. induction l as [|x l IH]; intros k.
  - split; [intros [= <-]; constructor | by inversion 1].
  - rewrite mapM_cons. split.
    + destruct (f x) as [y|e] eqn:Hx; [|done].
      destruct (mapM f l) as [k'|e] eqn:Hl; [|done].
      intros [= <-]. constructor; [done|]. by apply IH.
    + inversion 1 as [|? y ? k' Hx Hl]; subst. rewrite Hx.
      apply IH in Hl. by rewrite Hl.
Qed.

Lemma mapM_is_Ok l : Forall (λ x, is_Ok (f x)) l → is_Ok (mapM f l).
Proof.
  induction 1 as [|x l [y Hx] _ [k Hl]]; [by exists []|].
  exists (y :: k). by rewrite mapM_cons, Hx, Hl.
Qed.

Lemma mapM_Raise l e : mapM f l = Raise e → Exists (λ x, f x = Raise e) l.
Proof.
  induction l as [|x l IH]; [done|]. rewrite mapM_cons.
  destruct (f x) as [y|e'] eqn:Hx.
  - destruct (mapM f l) as [k|e'] eqn:Hl; [done|].
    intros [= ->]. right. by apply IH.
  - intros [= ->]. by left.
Qed.

End ResultLists.

(** All rows are counted by a filter exactly when all of them pass it. *)
Lemma all_counted {A} (P : A → Prop) `{!∀ x, Decision (P x)} (l : list A) :
  length l = length (filter P l) ↔ Forall P l.
Proof.
  induction l as [|x l IH]; [by split|].
  rewrite filter_cons. destruct (decide (P x)) as [Hx|Hx]; simpl.
  - rewrite Forall_cons. split; [intros [= Hl]; split; [done|by apply IH]|].
    intros [_ Hl]. f_equal. by apply IH.
  - pose proof (length_filter P l). split; [lia|].
    intros Hl. by apply Forall_cons in Hl as [? _].
Qed.

(** ** The validators *)

Section Validators.

Abbreviation validity := validate_df_aqi_exps__validate_aqi_exp.

(** The type check of the updater passes a record exactly when its validity
    code is none of the type codes 4 and 5. *)
Lemma type_check_codes (v : pyval) :
  validate_aqi_exps__validate_aqi_exp v = Ok true
  ↔ ∃ c, validity v = Ok c ∧ (c = 0 ∨ c = 1 ∨ c = 3).
Proof.
  destruct v as [| | | |l]; simpl;
    try (split; [done|by intros (c & [= <-] & [|[|]])]).
  destruct l as [|a l]; simpl; [split; [done|by intros (c & ? & _)]|].
  destruct a; simpl; try (split; [done|by intros (c & [= <-] & [|[|]])]).
  destruct l as [|d l]; simpl; [split; [done|by intros (c & ? & _)]|].
  destruct d; simpl; try (split; [done|by intros (c & [= <-] & [|[|]])]).
  split; [intros _|done].
  eexists; split; [done|]. repeat case_match; auto.
Qed.

Lemma validate_aqi_exps_true rows :
  validate_aqi_exps (EdgesExp rows) = Ok true
  ↔ Forall (λ v, validate_aqi_exps__validate_aqi_exp v = Ok true) rows.*2.
Proof.
  unfold validate_aqi_exps. simpl.
  destruct (mapM _ rows.*2) as [oks|e] eqn:Hm; simpl.
  - apply mapM_Ok in Hm. case_decide as Hc.
    + apply all_counted in Hc. split; [intros _|done].
      clear -Hm Hc. induction Hm as [|v b l k Hv _ IH]; [done|].
      apply Forall_cons in Hc as [-> Hc]. constructor; auto.
    + split; [done|]. intros Hall. exfalso. apply Hc, all_counted.
      clear -Hm Hall. induction Hm as [|v b l k Hv _ IH]; [done|].
      apply Forall_cons in Hall as [Hb Hall]. constructor; [congruence|auto].
  - split; [done|]. intros Hall. apply mapM_Raise in Hm.
    apply Exists_exists in Hm as (v & Hin & Hv).
    rewrite Forall_forall in Hall. specialize (Hall v Hin). congruence.
Qed.

Lemma validate_df_aqi_exps_true col :
  validate_df_aqi_exps col = Ok true
  ↔ Forall (λ v, ∃ c, validity v = Ok c ∧ c ≤ 1) col.
Proof.
  unfold validate_df_aqi_exps.
  destruct (mapM _ col) as [codes|e] eqn:Hm; simpl.
  - apply mapM_Ok in Hm. case_decide as Hc.
    + apply all_counted in Hc. split; [intros _|done].
      clear -Hm Hc. induction Hm as [|v c l k Hv _ IH]; [done|].
      apply Forall_cons in Hc as [Hc1 Hc]. constructor; eauto.
    + split; [by destruct (logged_ratio _ _)|].
      intros Hall. exfalso. apply Hc, all_counted.
      clear -Hm Hall. induction Hm as [|v c l k Hv _ IH]; [done|].
      apply Forall_cons in Hall as [(c' & Hc' & Hle) Hall].
      constructor; [congruence|auto].
  - split; [done|]. intros Hall. apply mapM_Raise in Hm.
    apply Exists_exists in Hm as (v & Hin & Hv).
    rewrite Forall_forall in Hall. destruct (Hall v Hin) as (c & Hc & _).
    congruence.
Qed.

(** The codes are 0, 1, 3, 4 and 5. *)
Lemma validity_codes v c :
  validity v = Ok c → c = 0 ∨ c = 1 ∨ c = 3 ∨ c = 4 ∨ c = 5.
Proof.
  destruct v as [| | | |l]; simpl; try (intros [= <-]; auto).
  destruct l as [|a l]; simpl; [done|].
  destruct a; simpl; try (intros [= <-]; auto).
  destruct l as [|d l]; simpl; [done|].
  destruct d; simpl; intros [= <-]; repeat case_match; auto.
Qed.

End Validators.

(** The ratio for the warning is never computed over zero rows. *)
Lemma logged_ratio_Ok (codes : list Z) :
  length codes ≠ length (filter (λ c, c ≤ 1) codes) →
  logged_ratio (length (filter (λ c, c ≤ 1) codes)) (length codes) = Ok ().
Proof. by destruct codes. Qed.

(** [validate_df_aqi] returns a flag for every column. *)
Lemma validate_df_aqi_total (aqi_col : list pyval) :
  is_Ok (validate_df_aqi aqi_col).
Proof.
  unfold validate_df_aqi. case_decide as Hc; [by eexists|].
  rewrite logged_ratio_Ok by done. by eexists.
Qed.

(** C5, as the code has it: the two validation passes of an update cycle are
    calls of [validate_aqi_exps], which checks the types only.  A pass accepts
    a batch exactly when every record's validity code is 0, 1 or 3, that is,
    none of the type codes 4 and 5; an index or a distance out of range
    (code 3) is accepted.  [validate_df_aqi_exps], which the cycle does not
    call, accepts a batch exactly when every code is 0 or 1. *)
Theorem validation_passes_accept_by_type :
  (∀ rows : list (uvkey * pyval),
     validate_aqi_exps (EdgesExp rows) = Ok true
     ↔ Forall (λ v, ∃ c, validate_df_aqi_exps__validate_aqi_exp v = Ok c
                         ∧ (c = 0 ∨ c = 1 ∨ c = 3)) rows.*2)
  ∧ (∀ col : list pyval,
     validate_df_aqi_exps col = Ok true
     ↔ Forall (λ v, ∃ c, validate_df_aqi_exps__validate_aqi_exp v = Ok c
                         ∧ (c = 0 ∨ c = 1)) col).
Proof.
  split.
  - intros rows. rewrite validate_aqi_exps_true.
    apply Forall_proper; [|done]. intros v. apply type_check_codes.
  - intros col. rewrite validate_df_aqi_exps_true.
    apply Forall_proper; [|done]. intros v. split.
    + intros (c & Hc & Hle). exists c. split; [done|].
      apply validity_codes in Hc. lia.
    + intros (c & Hc & Hle). exists c. split; [done|]. lia.
Qed.

(** C5, as stated, fails: a record with the negative index -1.0 has the
    validity code 3, and a validation pass of the cycle accepts the batch. *)
Lemma validation_pass_accepts_code_3 :
  validate_df_aqi_exps__validate_aqi_exp
    (VTuple [VFloat (F64.lit (-1) 1); VFloat (F64.lit 5 1)]) = Ok 3
  ∧ validate_aqi_exps
      (EdgesExp [((1, 2, 0), VTuple [VFloat (F64.lit (-1) 1); VFloat (F64.lit 5 1)])])
    = Ok true
  ∧ validate_df_aqi_exps
      [VTuple [VFloat (F64.lit (-1) 1); VFloat (F64.lit 5 1)]] = Ok false.
Proof. repeat split; vm_compute; reflexivity. Qed.

(** C6, as the code has it: on a batch whose tuples have at least two
    members, whatever the other records and the members are, the exposure
    validation raises nothing and returns its flag, which is [True] exactly
    when every code is at most 1; [validate_df_aqi] returns a flag on every
    column. *)
Theorem validation_returns_flag (col : list pyval) :
  Forall (λ v, ∀ l, v = VTuple l → (2 ≤ length l)%nat) col →
  (∃ ok : bool,
     validate_df_aqi_exps col = Ok ok
     ∧ (ok = true ↔
        Forall (λ v, ∃ c, validate_df_aqi_exps__validate_aqi_exp v = Ok c ∧ c ≤ 1) col))
  ∧ is_Ok (validate_df_aqi col).
Proof.
  intros Hshape. split; [|apply validate_df_aqi_total].
  assert (Hok : is_Ok (mapM validate_df_aqi_exps__validate_aqi_exp col)).
  { apply mapM_is_Ok. eapply Forall_impl; [exact Hshape|].
    intros v Hv. destruct v as [| | | |l]; try by eexists.
    specialize (Hv l eq_refl).
    destruct l as [|a [|d l]]; simpl in Hv; try lia.
    destruct a; try by eexists. destruct d; by eexists. }
  destruct Hok as [codes Hcodes].
  pose proof (validate_df_aqi_exps_true col) as Htrue.
  unfold validate_df_aqi_exps in *. rewrite Hcodes in *. simpl in *.
  case_decide as Hc.
  - exists true. split; [done|]. by rewrite <-Htrue.
  - rewrite logged_ratio_Ok in * by done. simpl in *.
    exists false. split; [done|]. by rewrite <-Htrue.
Qed.

(** A batch of a pair, two records that are no tuples and a triple with
    members of other types is validated without an exception. *)
Lemma validation_returns_flag_witness :
  is_Ok (validate_df_aqi_exps
           [VTuple [VFloat (F64.lit 3 1); VFloat (F64.lit 10 1)]; VInt 5; VNone;
            VTuple [VStr "a"; VInt 1; VNone]]).
Proof.
  destruct (validation_returns_flag
              [VTuple [VFloat (F64.lit 3 1); VFloat (F64.lit 10 1)]; VInt 5; VNone;
               VTuple [VStr "a"; VInt 1; VNone]]) as [[ok [Hok _]] _].
  - repeat constructor; intros l [= <-]; simpl; lia.
  - by exists ok.
Defined.

(** C6, as stated, fails: the empty tuple and a tuple of one float make the
    validation raise [IndexError]. *)
Lemma validation_raises_on_short_tuple :
  validate_df_aqi_exps [VTuple []] = Raise IndexError
  ∧ validate_df_aqi_exps [VTuple [VFloat (F64.lit 3 1)]] = Raise IndexError.
Proof. split; reflexivity. Qed.

(** ** The mean pollution index *)

Section Sums.

Lemma py_sum_from_float (acc : float) (xs : list float) :
  foldl (λ acc x, a ← acc; py_add a x) (Ok (VFloat acc)) (VFloat <$> xs)
  = Ok (VFloat (foldl F64.add acc xs)).
Proof. revert acc. induction xs as [|x xs IH]; intros acc; [done|]. apply IH. Qed.

(** [sum] of a list of floats: the [int] 0 for the empty list, otherwise the
    floats added from the left on 0.0. *)
Lemma py_sum_floats (xs : list float) :
  py_sum (VFloat <$> xs)
  = Ok (match xs with [] => VInt 0 | _ => VFloat (fsum xs) end).
Proof. destruct xs as [|x xs]; [done|]. apply py_sum_from_float. Qed.

Lemma exposures_distances (l : list (float * float)) :
  mapM (λ aqi_exp, py_index aqi_exp 1) (exposure <$> l) = Ok (VFloat <$> l.*2).
Proof.
  induction l as [|p l IH]; [done|].
  rewrite fmap_cons, mapM_cons, IH. done.
Qed.

Lemma exposures_products (l : list (float * float)) :
  mapM (λ aqi_exp, a ← py_index aqi_exp 0; d ← py_index aqi_exp 1; py_mul a d)
    (exposure <$> l)
  = Ok (VFloat <$> ((λ p, F64.mul p.1 p.2) <$> l)).
Proof.
  induction l as [|p l IH]; [done|].
  rewrite fmap_cons, mapM_cons, IH. done.
Qed.

End Sums.

(** C7, as the code has it: the mean of a list of exposure pairs is the
    distance-weighted average rounded to two decimals, and
    [ZeroDivisionError] is raised exactly when the total distance is zero,
    the empty list included. *)
Theorem get_mean_aqi_rounded_weighted_mean (l : list (float * float)) :
  get_mean_aqi (exposure <$> l)
  = if F64.is_zero (fsum (l.*2)) then Raise ZeroDivisionError
    else Ok (VFloat (F64.round_ndigits2 (weighted_mean l))).
Proof.
  unfold get_mean_aqi, weighted_mean.
  rewrite exposures_distances. simpl. rewrite py_sum_floats. simpl.
  rewrite exposures_products. simpl. rewrite py_sum_floats. simpl.
  destruct l as [|p l]; [done|]. simpl.
  by destruct (F64.is_zero _).
Qed.

(** [meanPollutionIndex([(2.0,10.0),(4.0,10.0)]) = 3.0], and the mean over
    no distance fails. *)
Example get_mean_aqi_examples :
  get_mean_aqi [exposure (F64.lit 2 1, F64.lit 10 1);
                exposure (F64.lit 4 1, F64.lit 10 1)] = Ok (VFloat (F64.lit 3 1))
  ∧ get_mean_aqi [exposure (F64.lit 2 1, F64.lit 0 1)] = Raise ZeroDivisionError
  ∧ get_mean_aqi [] = Raise ZeroDivisionError.
Proof. repeat split; vm_compute; reflexivity. Qed.

(** C7, as stated, fails: over [(1.0,1.0)] and [(2.0,2.0)] the weighted
    average is 5/3 = 1.6666666666666667, and the code returns 1.67. *)
Lemma get_mean_aqi_not_weighted_mean :
  weighted_mean [(F64.lit 1 1, F64.lit 1 1); (F64.lit 2 1, F64.lit 2 1)]
  = F64.lit 5 3
  ∧ get_mean_aqi [exposure (F64.lit 1 1, F64.lit 1 1);
                  exposure (F64.lit 2 1, F64.lit 2 1)]
    = Ok (VFloat (F64.lit 167 100))
  ∧ F64.lit 167 100 ≠ F64.lit 5 3.
Proof. repeat split; vm_compute; (reflexivity || discriminate). Qed.

(** ** The batch fan-out of costs *)

Section Dictionaries.

Lemma dict_of_snoc (entries : list (string * pyval)) k v :
  dict_of (entries ++ [(k, v)]) = <[k := v]> (dict_of entries).
Proof. unfold dict_of. by rewrite foldl_app. Qed.

(** A key of the dictionary is the key of an entry. *)
Lemma dict_of_lookup_Some (entries : list (string * pyval)) k v :
  dict_of entries !! k = Some v → (k, v) ∈ entries.
Proof.
  induction entries as [|[k' v'] entries IH] using rev_ind; [done|].
  rewrite dict_of_snoc, lookup_insert. case_decide as Hk.
  - intros [= ->]. subst. apply elem_of_app. right. by left.
  - intros H. apply elem_of_app. left. by apply IH.
Qed.

(** An entry is found under its key when no other value competes for it. *)
Lemma dict_of_lookup (entries : list (string * pyval)) k v :
  (k, v) ∈ entries → (∀ v', (k, v') ∈ entries → v' = v) →
  dict_of entries !! k = Some v.
Proof.
  induction entries as [|[k' v'] entries IH] using rev_ind;
    [by intros ?%elem_of_nil|].
  intros Hin Huniq. rewrite dict_of_snoc, lookup_insert. case_decide as Hk.
  - subst k'. f_equal. apply Huniq, elem_of_app. right. by left.
  - apply IH.
    + apply elem_of_app in Hin as [Hin|Hin]; [done|].
      apply list_elem_of_singleton in Hin. congruence.
    + intros v'' Hin'. apply Huniq, elem_of_app. by left.
Qed.

(** The keys of the dictionary are the keys of the entries. *)
Lemma dict_of_dom (entries : list (string * pyval)) :
  dom (dict_of entries) = list_to_set entries.*1.
Proof.
  induction entries as [|[k v] entries IH] using rev_ind.
  - unfold dict_of. simpl. by rewrite dom_empty_L.
  - rewrite dict_of_snoc, dom_insert_L, IH, fmap_app, list_to_set_app_L.
    simpl. rewrite (right_id_L ∅ (∪)). apply (comm_L (∪)).
Qed.

End Dictionaries.

Section CostsOfExposure.

Variables (index distance : float) (length : float).

Lemma cost_entries (sens : list number) :
  Forall (λ s, convertible s = true) sens →
  mapM (λ sen,
          d ← py_index (exposure (index, distance)) 1;
          c ← get_aqi_cost d (VFloat (coefficient index)) VNone (num_val sen);
          t ← py_add (VFloat length) c;
          v ← py_round2 t;
          Ok (aqc_key sen, v)) sens
  = Ok (cost_entry index distance length <$> sens).
Proof.
  induction 1 as [|s sens Hs _ IH]; [done|].
  rewrite mapM_cons, IH. simpl.
  destruct s as [z|x]; simpl in *; [|done].
  unfold float_of_int. by rewrite Hs.
Qed.

Lemma get_aqi_costs_dict (sens : list number) :
  Forall (λ s, convertible s = true) sens →
  get_aqi_costs (exposure (index, distance)) sens (VFloat length)
  = Ok (dict_of (cost_entry index distance length <$> sens)).
Proof.
  intros Hs.
  transitivity
    (entries ← mapM (λ sen,
                  d ← py_index (exposure (index, distance)) 1;
                  c ← get_aqi_cost d (VFloat (coefficient index)) VNone (num_val sen);
                  t ← py_add (VFloat length) c;
                  v ← py_round2 t;
                  Ok (aqc_key sen, v)) sens;
     Ok (dict_of entries)); [reflexivity|].
  by rewrite (cost_entries sens Hs).
Qed.

End CostsOfExposure.

Section CostsOfNumbers.

Variables (index distance length : number).
Hypothesis Hindex : has_coefficient index = true.
Hypothesis Hdistance : convertible distance = true.
Hypothesis Hlength : convertible length = true.

Lemma get_aqi_coeff_number :
  get_aqi_coeff (num_val index) = Ok (VFloat (coefficient_of index)).
Proof using Hindex.
  destruct index as [z|x]; [|done].
  unfold get_aqi_coeff. cbn [num_val py_sub mbind result_bind py_truediv].
  unfold int_truediv. change (4 =? 0) with false. change (4 <? 0) with false.
  change (Z.to_pos (Z.abs 4)) with 4%positive. cbv iota.
  rewrite xorb_false_r. unfold has_coefficient, coefficient_of in Hindex.
  by rewrite Hindex.
Qed.

Lemma as_float_number (n : number) :
  convertible n = true → as_float (num_val n) = Ok (num_float n).
Proof.
  destruct n as [z|x]; simpl; [|done]. intros Hn.
  unfold float_of_int. by rewrite Hn.
Qed.

Lemma py_mul_number_float (n : number) (y : float) :
  convertible n = true →
  py_mul (num_val n) (VFloat y) = Ok (VFloat (F64.mul (num_float n) y)).
Proof.
  intros Hn. pose proof (as_float_number n Hn) as Ha.
  destruct n as [z|x]; simpl in *; by rewrite ?Ha.
Qed.

Lemma py_mul_float_number (x : float) (n : number) :
  convertible n = true →
  py_mul (VFloat x) (num_val n) = Ok (VFloat (F64.mul x (num_float n))).
Proof.
  intros Hn. pose proof (as_float_number n Hn) as Ha.
  destruct n as [z|y]; simpl in *; by rewrite ?Ha.
Qed.

Lemma py_add_number_float (n : number) (y : float) :
  convertible n = true →
  py_add (num_val n) (VFloat y) = Ok (VFloat (F64.add (num_float n) y)).
Proof.
  intros Hn. pose proof (as_float_number n Hn) as Ha.
  destruct n as [z|x]; simpl in *; by rewrite ?Ha.
Qed.

Lemma cost_entries_of_numbers (sens : list number) :
  Forall (λ s, convertible s = true) sens →
  mapM (λ sen,
          d ← py_index (VTuple [num_val index; num_val distance]) 1;
          c ← get_aqi_cost d (VFloat (coefficient_of index)) VNone (num_val sen);
          t ← py_add (num_val length) c;
          v ← py_round2 t;
          Ok (aqc_key sen, v)) sens
  = Ok ((λ s, (aqc_key s, VFloat (cost_of_numbers index distance length s))) <$> sens).
Proof using Hdistance Hlength.
  induction 1 as [|s sens Hs _ IH]; [done|].
  rewrite mapM_cons, IH. cbn [py_index lookup list_lookup mbind result_bind].
  cbn [get_aqi_cost]. rewrite (py_mul_number_float distance _ Hdistance).
  cbn [mbind result_bind]. rewrite (py_mul_float_number _ s Hs).
  cbn [mbind result_bind py_round2].
  by rewrite (py_add_number_float length _ Hlength).
Qed.

Lemma get_aqi_costs_of_numbers (sens : list number) :
  Forall (λ s, convertible s = true) sens →
  get_aqi_costs (VTuple [num_val index; num_val distance]) sens (num_val length)
  = Ok (dict_of ((λ s, (aqc_key s, VFloat (cost_of_numbers index distance length s))) <$> sens)).
Proof using Hindex Hdistance Hlength.
  intros Hs. unfold get_aqi_costs.
  cbn [py_index lookup list_lookup mbind result_bind].
  rewrite get_aqi_coeff_number. cbn [mbind result_bind].
  change (mapM _ sens) with
    (mapM (λ sen,
             d ← py_index (VTuple [num_val index; num_val distance]) 1;
             c ← get_aqi_cost d (VFloat (coefficient_of index)) VNone
                   (num_val sen);
             t ← py_add (num_val length) c;
             v ← py_round2 t;
             Ok (aqc_key sen, v)) sens).
  by rewrite (cost_entries_of_numbers sens Hs).
Qed.

End CostsOfNumbers.

(** C4, as the code has it: for an exposure pair and a base length of
    numbers, floats or ints (the default length 0 is an [int]), and
    sensitivities that are numbers with distinct names, all ints being in the
    range of floats, the fan-out returns a dictionary with exactly one entry
    per sensitivity [s], named [aqc_<s>], whose value is
    [round(L + round(distance × ((index − 1)/4) × s, 2), 2)]: the cost of the
    exposure is rounded before the base length is added, and the sum is
    rounded again. *)
Theorem get_aqi_costs_entries (index distance L : number)
    (sens : list number) :
  has_coefficient index = true → convertible distance = true →
  convertible L = true →
  Forall (λ s, convertible s = true) sens →
  (∀ s s', s ∈ sens → s' ∈ sens → aqc_key s = aqc_key s' → s = s') →
  ∃ costs : gmap string pyval,
    get_aqi_costs (VTuple [num_val index; num_val distance]) sens (num_val L)
    = Ok costs
    ∧ (∀ s, s ∈ sens →
         costs !! aqc_key s
         = Some (VFloat (F64.round_ndigits2
                   (F64.add (num_float L)
                      (F64.round_ndigits2
                         (F64.mul
                            (F64.mul (num_float distance)
                               (coefficient_of index))
                            (num_float s)))))))
    ∧ (∀ k, is_Some (costs !! k) → ∃ s, s ∈ sens ∧ k = aqc_key s).
Proof.
  intros Hindex Hdistance HL Hconv Hinj. eexists.
  split; [by apply get_aqi_costs_of_numbers|]. split.
  - intros s Hs.
    apply (dict_of_lookup _ _ (VFloat (cost_of_numbers index distance L s))).
    + apply list_elem_of_fmap. by exists s.
    + intros v' Hin. apply list_elem_of_fmap in Hin as (s' & Heq & Hs').
      assert (Hk : aqc_key s = aqc_key s') by exact (f_equal fst Heq).
      pose proof (f_equal snd Heq) as Hv'. cbn [snd] in Hv'.
      by rewrite Hv', (Hinj s s' Hs Hs' Hk).
  - intros k [v Hv]. apply dict_of_lookup_Some in Hv.
    apply list_elem_of_fmap in Hv as (s & Heq & Hs).
    exists s. split; [done|]. exact (f_equal fst Heq).
Qed.

(** [costsForExposure((3.0,10.0), [1,2], baseLength=10)], with the base
    length the [int] 10, has the entries [aqc_1 = 15.0] and [aqc_2 = 20.0];
    so it has with the exposure [(3, 10)] of two ints. *)
Lemma get_aqi_costs_entries_witness :
  (∃ costs : gmap string pyval,
     get_aqi_costs (exposure (F64.lit 3 1, F64.lit 10 1)) [NInt 1; NInt 2]
       (VInt 10) = Ok costs
     ∧ costs !! "aqc_1" = Some (VFloat (F64.lit 15 1))
     ∧ costs !! "aqc_2" = Some (VFloat (F64.lit 20 1)))
  ∧ (∃ costs : gmap string pyval,
       get_aqi_costs (VTuple [VInt 3; VInt 10]) [NInt 1; NInt 2] (VInt 10)
       = Ok costs
       ∧ costs !! "aqc_1" = Some (VFloat (F64.lit 15 1))
       ∧ costs !! "aqc_2" = Some (VFloat (F64.lit 20 1))).
Proof.
  assert (Hinj : ∀ s s' : number,
             s ∈ [NInt 1; NInt 2] → s' ∈ [NInt 1; NInt 2] →
             aqc_key s = aqc_key s' → s = s').
  { intros s s' Hs Hs' Hk.
    apply elem_of_cons in Hs as [->|Hs];
      [|apply list_elem_of_singleton in Hs as ->];
      (apply elem_of_cons in Hs' as [->|Hs'];
       [|apply list_elem_of_singleton in Hs' as ->]);
      first [reflexivity | discriminate Hk]. }
  split.
  - destruct (get_aqi_costs_entries (NFloat (F64.lit 3 1))
                (NFloat (F64.lit 10 1)) (NInt 10) [NInt 1; NInt 2])
      as (costs & Hc & Hv & _);
      [reflexivity|reflexivity|reflexivity|repeat constructor|exact Hinj|].
    exists costs. split; [exact Hc|]. split.
    + apply (Hv (NInt 1)). by left.
    + apply (Hv (NInt 2)). right. by left.
  - destruct (get_aqi_costs_entries (NInt 3) (NInt 10) (NInt 10)
                [NInt 1; NInt 2])
      as (costs & Hc & Hv & _);
      [reflexivity|reflexivity|reflexivity|repeat constructor|exact Hinj|].
    exists costs. split; [exact Hc|]. split.
    + apply (Hv (NInt 1)). by left.
    + apply (Hv (NInt 2)). right. by left.
Defined.

(** The example of the specification, with the base length given as the
    [int] 10, and the names that the sensitivities of the catalogue get. *)
Example get_aqi_costs_example :
  get_aqi_costs (exposure (F64.lit 3 1, F64.lit 10 1)) [NInt 1; NInt 2] (VInt 10)
  = Ok {[ "aqc_1" := VFloat (F64.lit 15 1); "aqc_2" := VFloat (F64.lit 20 1) ]}
  ∧ aqc_key <$> get_aq_sensitivities false
    = ["aqc_0.2"; "aqc_0.5"; "aqc_1"; "aqc_3"; "aqc_6"; "aqc_10"; "aqc_20";
       "aqc_35"].
Proof. split; vm_compute; reflexivity. Qed.

(** C4, as stated, fails: for the exposure [(5.0, 0.004)], the sensitivity 1
    and the base length 0.002 the formula [round(L + distance × ((index −
    1)/4) × s, 2)] gives 0.01, and the code returns 0.0, since the cost 0.004
    is rounded to 0.0 before the length is added. *)
Lemma get_aqi_costs_rounds_twice :
  F64.round_ndigits2
    (F64.add (F64.lit 2 1000)
       (F64.mul (F64.mul (F64.lit 4 1000) (coefficient (F64.lit 5 1)))
          (num_float (NInt 1))))
  = F64.lit 1 100
  ∧ get_aqi_costs (exposure (F64.lit 5 1, F64.lit 4 1000)) [NInt 1]
      (VFloat (F64.lit 2 1000))
    = Ok {[ "aqc_1" := VFloat (F64.lit 0 1) ]}
  ∧ F64.lit 0 1 ≠ F64.lit 1 100.
Proof. repeat split; vm_compute; (reflexivity || discriminate). Qed.

(** ** The refresh cycle *)

Section Cycle.

Local Ltac run :=
  unfold new_aqi_data_available, maybe_read_update_aqi_to_graph,
    try_except, mbind, method_bind, mret, method_ret, get_self, modify, lift,
    store_G; simpl.

(** The check for new data stores nothing and changes the status text only;
    it proposes the expected file when this file is neither the latest one
    nor the one in progress and is in the directory, and raises what the
    listing of the directory raises, when it comes to list it. *)
Lemma new_aqi_data_available_spec (w : World) (self : GraphAqiUpdater) :
  let o := new_aqi_data_available w self in
  seen o = [] ∧ same_but_status (final o) self
  ∧ res o = if decide (get_expected_aqi_data_name w = aqi_data_latest self)
            then Ok None
            else if decide (get_expected_aqi_data_name w = aqi_data_wip self)
            then Ok None
            else names ← listdir w;
                 Ok (if decide (get_expected_aqi_data_name w ∈ names)
                     then Some (get_expected_aqi_data_name w) else None).
Proof.
  run. unfold same_but_status.
  repeat (case_decide; simpl); try done.
  all: destruct (listdir w) as [names|e]; simpl; [|done].
  all: repeat (case_decide; simpl); done.
Qed.

(** The check raises only when it lists the directory, and then it leaves the
    updater as it was. *)
Lemma new_aqi_data_available_raise (w : World) (self : GraphAqiUpdater) e :
  res (new_aqi_data_available w self) = Raise e →
  final (new_aqi_data_available w self) = self ∧ listdir w = Raise e
  ∧ get_expected_aqi_data_name w ≠ aqi_data_latest self
  ∧ get_expected_aqi_data_name w ≠ aqi_data_wip self.
Proof.
  run. repeat (case_decide; simpl); try done.
  all: destruct (listdir w) as [names|e']; simpl;
    [repeat (case_decide; simpl); done|by intros [= ->]].
Qed.

End Cycle.

(** C3, as the code has it: while a file is in progress, a trigger whose
    expected file is that same file (so the marker is not empty, a file name
    never is) merges nothing: it stores no dataset, and the dataset, the
    marker, the latest file and the update time stay as they are. *)
Theorem no_merge_for_file_in_progress (w : World) (self : GraphAqiUpdater) :
  get_expected_aqi_data_name w = aqi_data_wip self →
  seen (maybe_read_update_aqi_to_graph w self) = []
  ∧ res (maybe_read_update_aqi_to_graph w self) = Ok ()
  ∧ same_but_status (final (maybe_read_update_aqi_to_graph w self)) self
  ∧ aqi_data_wip self ≠ "".
Proof.
  intros Hwip.
  destruct (new_aqi_data_available_spec w self) as (Hseen & Hsame & Hres).
  unfold maybe_read_update_aqi_to_graph, mbind, method_bind.
  rewrite Hres, Hseen. rewrite (decide_True _ _ Hwip).
  repeat case_decide; simpl; (split; [done|]); (split; [done|]);
    (split; [done|]); by rewrite <-Hwip.
Qed.

(** At 17:05, with the file of 17 h in progress, a trigger stores nothing. *)
Lemma no_merge_for_file_in_progress_witness :
  seen (maybe_read_update_aqi_to_graph world_17 updating_17) = []
  ∧ G (final (maybe_read_update_aqi_to_graph world_17 updating_17)) = two_edges.
Proof.
  destruct (no_merge_for_file_in_progress world_17 updating_17)
    as (Hseen & _ & Hsame & _); [reflexivity|].
  split; [exact Hseen|]. by destruct Hsame as [-> _].
Defined.

(** C3, as stated, fails for a different candidate file: with the file of
    17 h still in progress, the trigger at 18:05 finds the file of 18 h,
    merges it and stores the dataset twice. *)
Lemma merge_while_other_file_in_progress :
  aqi_data_wip updating_17 = file_17
  ∧ edge_gdf <$> seen (maybe_read_update_aqi_to_graph world_18 updating_17)
    = [EdgesExp [(edge_a, exposure (F64.lit 4 1, F64.lit 10 1));
                 (edge_b, VFloat F64.nan)];
       EdgesExp [(edge_a, exposure (F64.lit 4 1, F64.lit 10 1));
                 (edge_b, VFloat F64.nan)]]
  ∧ edge_gdf (G (final (maybe_read_update_aqi_to_graph world_18 updating_17)))
    ≠ edge_gdf (G updating_17)
  ∧ aqi_data_latest (final (maybe_read_update_aqi_to_graph world_18 updating_17))
    = file_18.
Proof. repeat split; vm_compute; (reflexivity || discriminate). Qed.

Section UpdateRun.

Lemma bind_Ok_inv {A B} (r : result A) (k : A → result B) (b : B) :
  r ≫= k = Ok b → ∃ a, r = Ok a ∧ k a = Ok b.
Proof. destruct r as [a|e]; [by exists a|done]. Qed.

(** The run of an update, step by step: the marker is set; the batch is read
    and validated; the merged table is stored; it is validated; the
    attributes of every row of the batch are computed; they are stored on
    the graph; the update is recorded. *)
Lemma read_update_aqi_to_graph_run (w : World) (csv : string)
    (self : GraphAqiUpdater) :
  read_update_aqi_to_graph w csv self =
  let marked := set_aqi_data_wip csv self in
  match incoming_batch w csv with
  | Raise e => {| seen := []; final := marked; res := Raise e |}
  | Ok updates =>
      let g1 := set_edge_gdf (G self) (merge_left (edge_gdf (G self)) updates) in
      let merged := set_G g1 marked in
      match validate_aqi_exps (edge_gdf g1) ≫= λ _,
            mapM (get_aq_update_attrs merged) updates.*2 with
      | Raise e => {| seen := [g1]; final := merged; res := Raise e |}
      | Ok aq_updates =>
          let g2 := update_edge_attr_to_graph g1 (zip updates.*1 aq_updates) in
          {| seen := [g1; g2];
             final := set_updated (utcnow_after w) csv (set_G g2 merged);
             res := Ok () |}
      end
  end.
Proof.
  unfold read_update_aqi_to_graph, incoming_batch, mbind at 1 2 3 4 5 6 7 8 9,
    method_bind, modify, lift, get_self, store_G. simpl.
  destruct (read_csv w csv) as [updates|e]; simpl; [|done].
  destruct (validate_aqi_exps (EdgesExp updates)) as [ok|e]; simpl; [|done].
  assert (Hm : (if has_aqi_exp (edge_gdf (G self))
                then merge_left (drop_aqi_exp (edge_gdf (G self))) updates
                else merge_left (edge_gdf (G self)) updates)
               = merge_left (edge_gdf (G self)) updates) by by case_match.
  rewrite !Hm.
  destruct (validate_aqi_exps (merge_left _ _)) as [ok'|e]; simpl; [|done].
  destruct (mapM _ _) as [aq_updates|e]; simpl; done.
Qed.

End UpdateRun.

Section UpdateEffects.

Lemma maybe_read_update_run (w : World) (self : GraphAqiUpdater) (csv : string) :
  res (new_aqi_data_available w self) = Ok (Some csv) →
  maybe_read_update_aqi_to_graph w self
  = let o := read_update_aqi_to_graph w csv
               (final (new_aqi_data_available w self)) in
    match res o with
    | Ok _ => o
    | Raise _ =>
        {| seen := seen o;
           final := set_aqi_update_status
                      (String.append "could not complete AQI update from: " csv)
                      (final o);
           res := Ok () |}
    end.
Proof.
  intros Hnew. destruct (new_aqi_data_available_spec w self) as (Hseen & _ & _).
  unfold maybe_read_update_aqi_to_graph, mbind, method_bind.
  destruct (new_aqi_data_available w self) as [s0 f0 r0].
  cbn [seen final res] in *. subst s0 r0. unfold try_except, modify.
  generalize (read_update_aqi_to_graph w csv f0). intros [sn fn [[]|e]];
    cbn [seen final res app]; [done|]. by rewrite app_nil_r.
Qed.

End UpdateEffects.

(** C1, as the code has it: when a cycle for the file [csv] raises, the
    trigger returns normally; the latest file, the update time and the
    attributes on the graph (the cost columns) are those of before the
    cycle, and the marker stays on [csv].  The edge table is untouched when
    the exception comes from reading or from validating the incoming batch;
    when it comes later, from the second validation or from computing the
    attributes, the merged table has been stored and stays. *)
Theorem failed_cycle_effects (w : World) (self : GraphAqiUpdater)
    (csv : string) (e : exn) :
  res (new_aqi_data_available w self) = Ok (Some csv) →
  res (read_update_aqi_to_graph w csv (final (new_aqi_data_available w self)))
  = Raise e →
  let o := maybe_read_update_aqi_to_graph w self in
  res o = Ok ()
  ∧ aqi_data_latest (final o) = aqi_data_latest self
  ∧ aqi_data_updatetime (final o) = aqi_data_updatetime self
  ∧ aqi_data_wip (final o) = csv
  ∧ graph (G (final o)) = graph (G self)
  ∧ match incoming_batch w csv with
    | Raise _ => G (final o) = G self ∧ seen o = []
    | Ok updates =>
        edge_gdf (G (final o)) = merge_left (edge_gdf (G self)) updates
        ∧ seen o = [G (final o)]
    end.
Proof.
  intros Hnew Hraise o. subst o. rewrite (maybe_read_update_run w self csv Hnew).
  destruct (new_aqi_data_available_spec w self)
    as (_ & (HG & _ & Hwip & Hlatest & Htime) & _).
  revert Hraise HG Hwip Hlatest Htime.
  generalize (final (new_aqi_data_available w self)). intros start.
  rewrite read_update_aqi_to_graph_run. cbv zeta.
  destruct (incoming_batch w csv) as [updates|e1]; simpl.
  - destruct (_ ≫= _) as [aq_updates|e2]; simpl; [done|].
    intros _ HG _ Hlatest Htime. by rewrite HG, Hlatest, Htime.
  - intros _ HG _ Hlatest Htime. by rewrite HG, Hlatest, Htime.
Qed.

(** At 17:05 the file of the hour gives an edge the exposure [(2.5, None)]:
    the cycle raises [TypeError] when it computes the costs, the trigger
    returns, and the graph has no new attribute. *)
Lemma failed_cycle_effects_witness :
  res (read_update_aqi_to_graph world_17_no_distance file_17
         (final (new_aqi_data_available world_17_no_distance (init two_edges))))
  = Raise TypeError
  ∧ res (maybe_read_update_aqi_to_graph world_17_no_distance (init two_edges))
    = Ok ()
  ∧ graph (G (final (maybe_read_update_aqi_to_graph world_17_no_distance
                       (init two_edges))))
    = graph two_edges.
Proof.
  split; [reflexivity|].
  destruct (failed_cycle_effects world_17_no_distance (init two_edges) file_17
              TypeError) as (Hres & _ & _ & _ & Hgraph & _);
    [reflexivity|reflexivity|].
  split; [exact Hres|exact Hgraph].
Defined.

(** C1, as stated, fails: in that cycle the exception is raised after the
    merged table was stored, so the dataset that readers see is no longer
    the one of before the cycle: its edge table carries the new exposures,
    while no cost was computed from them. *)
Lemma failed_cycle_leaves_merged_table :
  res (read_update_aqi_to_graph world_17_no_distance file_17
         (final (new_aqi_data_available world_17_no_distance (init two_edges))))
  = Raise TypeError
  ∧ edge_gdf (G (init two_edges)) = Edges [edge_a; edge_b]
  ∧ edge_gdf (G (final (maybe_read_update_aqi_to_graph world_17_no_distance
                          (init two_edges))))
    = EdgesExp [(edge_a, VTuple [VFloat (F64.lit 25 10); VNone]);
                (edge_b, VFloat F64.nan)]
  ∧ graph (G (final (maybe_read_update_aqi_to_graph world_17_no_distance
                       (init two_edges))))
    = graph two_edges
  ∧ aqi_data_wip (final (maybe_read_update_aqi_to_graph world_17_no_distance
                           (init two_edges)))
    = file_17.
Proof. repeat split; vm_compute; reflexivity. Qed.

Section AttributesOfExposure.

Lemma dict_of_is_Some (entries : list (string * pyval)) k :
  k ∈ entries.*1 → is_Some (dict_of entries !! k).
Proof.
  induction entries as [|[k' v'] entries IH] using rev_ind;
    [by intros ?%elem_of_nil|].
  rewrite fmap_app, elem_of_app, dict_of_snoc, lookup_insert. simpl.
  intros [Hin|Hin%list_elem_of_singleton]; case_decide; try done; auto.
Qed.

(** A successful fan-out has a cost column for every sensitivity. *)
Lemma get_aqi_costs_keys aqi_exp sens length costs :
  get_aqi_costs aqi_exp sens length = Ok costs →
  ∀ s, s ∈ sens → is_Some (costs !! aqc_key s).
Proof.
  unfold get_aqi_costs. intros H s Hs.
  apply bind_Ok_inv in H as (a & _ & H).
  apply bind_Ok_inv in H as (c & _ & H).
  apply bind_Ok_inv in H as (entries & Hentries & [= <-]).
  apply dict_of_is_Some. apply mapM_Ok in Hentries.
  clear -Hentries Hs. induction Hentries as [|s' entry sens entries He _ IH];
    [by apply elem_of_nil in Hs|].
  apply bind_Ok_inv in He as (? & _ & He).
  apply bind_Ok_inv in He as (? & _ & He).
  apply bind_Ok_inv in He as (? & _ & He).
  apply bind_Ok_inv in He as (? & _ & [= <-]).
  rewrite fmap_cons. simpl. apply elem_of_cons in Hs as [->|Hs].
  - by left.
  - right. by apply IH.
Qed.

(** The attributes of an exposure are [aqi] and a cost column for every
    sensitivity of the updater. *)
Lemma get_aq_update_attrs_keys self aqi_exp attrs :
  get_aq_update_attrs self aqi_exp = Ok attrs →
  is_Some (attrs !! "aqi") ∧ ∀ s, s ∈ sens self → is_Some (attrs !! aqc_key s).
Proof.
  unfold get_aq_update_attrs. intros H.
  apply bind_Ok_inv in H as (len & _ & H).
  apply bind_Ok_inv in H as (costs & Hcosts & H).
  apply bind_Ok_inv in H as (aqi & _ & [= <-]).
  split.
  - apply lookup_union_is_Some. right. rewrite lookup_singleton_eq. by eexists.
  - intros s Hs. apply lookup_union_is_Some. left.
    by eapply get_aqi_costs_keys.
Qed.


End AttributesOfExposure.




(** ** Freshness

    The seconds since the last update are the microseconds of a timedelta
    divided by [10**6] as a float and rounded to an [int].  The lemmas below
    follow the division of [spec_float] through its rounding, to compare the
    rounded seconds with the limit of 70 minutes. *)

Section Rounding.

Lemma Zdigits2_log2 (p : positive) : Zdigits2 (Zpos p) = Z.log2 (Zpos p) + 1.
Proof.
  simpl. induction p as [p IH|p IH|]; simpl in *; try done.
  - destruct p; simpl in *; lia.
  - destruct p; simpl in *; lia.
Qed.

Lemma Zdigits2_bounds (q n : Z) : 0 < n → 2 ^ (n - 1) ≤ q < 2 ^ n → Zdigits2 q = n.
Proof.
  intros Hn Hq. assert (0 < q) by (pose proof (Z.pow_pos_nonneg 2 (n - 1)); lia).
  destruct q as [|p|p]; try lia. rewrite Zdigits2_log2.
  rewrite (Z.log2_unique (Zpos p) (n - 1)); [lia|lia|].
  replace (Z.succ (n - 1)) with n by lia. done.
Qed.

Lemma Zdigits2_upper (p : positive) (n : Z) : 0 ≤ n → Zpos p < 2 ^ n → Zdigits2 (Zpos p) ≤ n.
Proof.
  intros Hn Hp. rewrite Zdigits2_log2.
  destruct (Z.log2_spec (Zpos p)) as [Hlo _]; [lia|].
  assert (Z.log2 (Zpos p) < n); [|lia].
  apply (Z.pow_lt_mono_r_iff 2); lia.
Qed.

Lemma Zdigits2_spec (p : positive) :
  2 ^ (Zdigits2 (Zpos p) - 1) ≤ Zpos p < 2 ^ Zdigits2 (Zpos p).
Proof.
  rewrite Zdigits2_log2. replace (Z.log2 (Zpos p) + 1 - 1) with (Z.log2 (Zpos p)) by lia.
  apply Z.log2_spec. lia.
Qed.

Lemma shr_m_of_loc m l : shr_m (shr_record_of_loc m l) = m.
Proof. by destruct l as [|[]]. Qed.

Lemma loc_of_shr_of_loc m l : loc_of_shr_record (shr_record_of_loc m l) = l.
Proof. by destruct l as [|[]]. Qed.

Lemma round_nearest_even_bounds m l :
  m ≤ round_nearest_even m l ≤ m + 1.
Proof. destruct l as [|[]]; simpl; try destruct (Z.even m); lia. Qed.

Lemma shr_1_m mrs : 0 ≤ shr_m mrs → shr_m (shr_1 mrs) = shr_m mrs / 2.
Proof.
  destruct mrs as [m r s]. cbn [shr_m]. intros Hm.
  destruct m as [|[p|p|]|p]; cbn [shr_1 shr_m];
    rewrite ?(Pos2Z.inj_xI p), ?(Pos2Z.inj_xO p);
    first [done | Z.div_mod_to_equations; lia].
Qed.

Lemma fexp_normal (d e : Z) :
  -1074 ≤ d + e - 53 → fexp 53 1024 (d + e) - e = d - 53.
Proof. unfold fexp, emin. lia. Qed.

(** No shift is needed for a mantissa of 53 digits. *)
Lemma shr_fexp_53 q e l :
  2 ^ 52 ≤ q < 2 ^ 53 → -1074 ≤ e →
  shr_fexp 53 1024 q e l = (shr_record_of_loc q l, e).
Proof.
  intros Hq He. unfold shr_fexp.
  rewrite (Zdigits2_bounds q 53) by (done || lia).
  rewrite fexp_normal by lia. reflexivity.
Qed.

(** A mantissa of 54 digits is shifted by one digit. *)
Lemma shr_fexp_54 q e l :
  2 ^ 53 ≤ q < 2 ^ 54 → -1075 ≤ e →
  shr_fexp 53 1024 q e l = (shr_1 (shr_record_of_loc q l), e + 1).
Proof.
  intros Hq He. unfold shr_fexp.
  rewrite (Zdigits2_bounds q 54) by (done || lia).
  rewrite fexp_normal by lia. reflexivity.
Qed.

(** Rounding a mantissa of 53 or 54 digits: the result is finite, its
    exponent is [e] or [e + 1], and its mantissa is the mantissa shifted to
    that exponent or the next integer. *)
Lemma binary_round_aux_faithful s q e l :
  2 ^ 52 ≤ q < 2 ^ 54 - 2 → -1074 ≤ e ≤ 969 →
  ∃ (M : positive) (j : Z),
    binary_round_aux 53 1024 s q e l = S754_finite s M (e + j)
    ∧ (j = 0 ∨ j = 1)
    ∧ q / 2 ^ j ≤ Zpos M ≤ q / 2 ^ j + 1.
Proof.
  intros Hq He. unfold binary_round_aux.
  destruct (Z.lt_ge_cases q (2 ^ 53)) as [Hlt|Hge].
  - rewrite shr_fexp_53 by lia.
    rewrite shr_m_of_loc, loc_of_shr_of_loc.
    pose proof (round_nearest_even_bounds q l) as HR.
    set (R := round_nearest_even q l) in *.
    destruct (Z.lt_ge_cases R (2 ^ 53)) as [HRlt|HRge].
    + rewrite shr_fexp_53 by lia. simpl shr_m.
      destruct R as [|M|M] eqn:HRM; try lia.
      exists M, 0. rewrite Z.add_0_r.
      replace (e <=? 1024 - 53) with true by lia.
      split; [done|]. split; [by left|]. rewrite Z.pow_0_r, Z.div_1_r. lia.
    + assert (R = 2 ^ 53) as -> by lia.
      rewrite shr_fexp_54 by lia. simpl shr_m.
      exists (2 ^ 52)%positive, 1.
      replace (e + 1 <=? 1024 - 53) with true by lia.
      split; [done|]. split; [by right|].
      assert (q = 2 ^ 53 - 1) as -> by lia. done.
  - rewrite shr_fexp_54 by lia.
    set (mrs := shr_1 (shr_record_of_loc q l)).
    assert (Hm : shr_m mrs = q / 2).
    { unfold mrs. rewrite shr_1_m; rewrite shr_m_of_loc; lia. }
    pose proof (round_nearest_even_bounds (shr_m mrs) (loc_of_shr_record mrs)) as HR.
    set (R := round_nearest_even (shr_m mrs) (loc_of_shr_record mrs)) in *.
    rewrite Hm in HR.
    assert (2 ^ 52 ≤ q / 2 < 2 ^ 53 - 1) by (Z.div_mod_to_equations; lia).
    rewrite shr_fexp_53 by lia. simpl shr_m.
    destruct R as [|M|M] eqn:HRM; try lia.
    exists M, 1.
    replace (e + 1 <=? 1024 - 53) with true by lia.
    split; [done|]. split; [by right|]. rewrite Z.pow_1_r. lia.
Qed.

(** The quotient of an integer below [2^63] by [10^6], before rounding: the
    numerator is scaled to 73 digits, which leaves a quotient of 53 or 54
    digits. *)
Lemma SFdiv_core_binary_million (p : positive) :
  Zdigits2 (Zpos p) ≤ 63 →
  SFdiv_core_binary 53 1024 (Zpos p) 0 1000000 0
  = ((Zpos p * 2 ^ (73 - Zdigits2 (Zpos p))) / 1000000,
     Zdigits2 (Zpos p) - 73,
     new_location 1000000 ((Zpos p * 2 ^ (73 - Zdigits2 (Zpos p))) mod 1000000)).
Proof.
  intros Hd. unfold SFdiv_core_binary.
  assert (1 ≤ Zdigits2 (Zpos p)) by (simpl; lia).
  set (d1 := Zdigits2 (Zpos p)) in *.
  change (Zdigits2 1000000) with 20.
  replace (Z.min (fexp 53 1024 (d1 + 0 - (20 + 0))) (0 - 0)) with (d1 - 73)
    by (unfold fexp, emin; lia).
  replace (0 - 0 - (d1 - 73)) with (73 - d1) by lia.
  destruct (73 - d1) as [|sh|sh] eqn:Hsh; try lia.
  rewrite Z.shiftl_mul_pow2 by lia.
  unfold Z.div, Z.modulo. by destruct (Z.div_eucl _ _).
Qed.

Lemma scaled_bounds (p : positive) :
  Zdigits2 (Zpos p) ≤ 73 →
  2 ^ 72 ≤ Zpos p * 2 ^ (73 - Zdigits2 (Zpos p)) < 2 ^ 73.
Proof.
  intros Hle. pose proof (Zdigits2_spec p) as [Hlo Hhi].
  assert (1 ≤ Zdigits2 (Zpos p)) by (simpl; lia).
  set (d1 := Zdigits2 (Zpos p)) in *.
  replace (2 ^ 72) with (2 ^ (d1 - 1) * 2 ^ (73 - d1))
    by (rewrite <-Z.pow_add_r by lia; f_equal; lia).
  replace (2 ^ 73) with (2 ^ d1 * 2 ^ (73 - d1))
    by (rewrite <-Z.pow_add_r by lia; f_equal; lia).
  assert (0 < 2 ^ (73 - d1)) by (apply Z.pow_pos_nonneg; lia). nia.
Qed.

(** The float nearest to [p / 10^6] for [p < 2^n <= 2^63]: it is finite, its
    exponent [E] is at most [n - 72], and its mantissa is [p * 2^-E / 10^6]
    rounded down or up. *)
Lemma of_ratio_million (s : bool) (p : positive) (n : Z) :
  1 ≤ n ≤ 63 → Zpos p < 2 ^ n →
  ∃ (M : positive) (E : Z),
    F64.of_ratio s (Zpos p) 1000000 = S754_finite s M E
    ∧ -72 ≤ E ≤ n - 72
    ∧ Zpos p * 2 ^ (- E) / 1000000 ≤ Zpos M
      ≤ Zpos p * 2 ^ (- E) / 1000000 + 1.
Proof.
  intros Hn Hp.
  pose proof (Zdigits2_upper p n ltac:(lia) Hp) as Hd.
  assert (1 ≤ Zdigits2 (Zpos p)) by (simpl; lia).
  unfold F64.of_ratio, F64.div, SFdiv, F64.prec, F64.emax.
  rewrite SFdiv_core_binary_million by lia.
  pose proof (scaled_bounds p ltac:(lia)) as Hm.
  set (d1 := Zdigits2 (Zpos p)) in *.
  set (m := Zpos p * 2 ^ (73 - d1)) in *.
  destruct (binary_round_aux_faithful (xorb s false) (m / 1000000) (d1 - 73)
              (new_location 1000000 (m mod 1000000)))
    as (M & j & Heq & Hj & HM).
  { Z.div_mod_to_equations. lia. }
  { lia. }
  rewrite Heq, xorb_false_r. exists M, (d1 - 73 + j).
  split; [done|]. split; [lia|].
  replace (Zpos p * 2 ^ (- (d1 - 73 + j)) / 1000000) with (m / 1000000 / 2 ^ j);
    [done|].
  destruct Hj as [-> | ->].
  - rewrite Z.pow_0_r, Z.div_1_r. unfold m. do 2 f_equal. f_equal. lia.
  - rewrite Z.pow_1_r, Z.div_div by lia. unfold m.
    replace (73 - d1) with (- (d1 - 73 + 1) + 1) by lia.
    rewrite Z.pow_add_r by lia. rewrite Z.pow_1_r, Z.mul_assoc.
    by rewrite Z.div_mul_cancel_r by lia.
Qed.

Lemma div_half_even_nonneg (a b : Z) : 0 ≤ a → 0 < b → 0 ≤ F64.div_half_even a b.
Proof.
  intros Ha Hb. unfold F64.div_half_even.
  assert (0 ≤ a / b) by (apply Z.div_pos; lia).
  destruct (2 * (a mod b) ?= b); try destruct (Z.even (a / b)); lia.
Qed.

(** Rounding to the nearest integer, ties to even, against the odd half
    8399/2 = 4199.5: at or above it the result is at least 4200, below it at
    most 4199. *)
Lemma div_half_even_4200 (a b : Z) :
  0 < b →
  (8399 * b ≤ 2 * a → 4200 ≤ F64.div_half_even a b)
  ∧ (2 * a < 8399 * b → F64.div_half_even a b < 4200).
Proof.
  intros Hb. unfold F64.div_half_even.
  pose proof (Z.div_mod a b ltac:(lia)) as Hab.
  pose proof (Z.mod_pos_bound a b Hb) as Hr.
  set (q := a / b) in *. set (r := a mod b) in *.
  split; intros H.
  - destruct (Z.le_gt_cases 4200 q) as [Hq|Hq].
    + destruct (2 * r ?= b); try destruct (Z.even q); lia.
    + assert (q = 4199) as Hq' by nia.
      destruct (Z.compare_spec (2 * r) b) as [He|Hlt|Hgt]; try nia.
      rewrite Hq'. simpl. lia.
  - destruct (Z.le_gt_cases q 4198) as [Hq|Hq].
    + destruct (2 * r ?= b); try destruct (Z.even q); lia.
    + assert (q = 4199) as Hq' by nia.
      destruct (Z.compare_spec (2 * r) b) as [He|Hlt|Hgt]; try nia.
Qed.

(** The seconds of a timedelta of less than [2^63] microseconds, rounded:
    both steps succeed, and the result is below 4200 exactly when the
    timedelta is below 4199.5 seconds. *)
Lemma rounded_seconds (us : Z) :
  - 2 ^ 63 < us < 2 ^ 63 →
  ∃ (x : float) (n : Z),
    total_seconds us = Ok x ∧ py_round_int x = Ok n
    ∧ (n < 4200 ↔ us < 4199500000).
Proof.
  intros Hus. unfold total_seconds, int_truediv.
  change (1000000 =? 0) with false. change (1000000 <? 0) with false.
  change (Z.to_pos (Z.abs 1000000)) with 1000000%positive.
  cbv iota. rewrite xorb_false_r.
  destruct us as [|p|p].
  - exists (S754_zero false), 0. done.
  - change (Z.pos p <? 0) with false. change (Z.abs (Z.pos p)) with (Z.pos p).
    destruct (Z.lt_ge_cases (Z.pos p) 4199500000) as [Hlt|Hge].
    + destruct (of_ratio_million false p 33) as (M & E & -> & HE & HM); [lia|lia|].
      exists (S754_finite false M E). eexists. split; [done|].
      split; [reflexivity|]. cbn [F64.round_to_Z].
      destruct E as [|E|E]; try lia. cbn [F64.scaled_half_even].
      rewrite Z.mul_1_r.
      split; [done|]. intros _.
      apply (div_half_even_4200 (Z.pos M) (2 ^ Z.pos E));
        [apply Z.pow_pos_nonneg; lia|].
      change (- Z.neg E) with (Z.pos E) in HM.
      assert (2 ^ 39 ≤ 2 ^ Z.pos E) by (apply Z.pow_le_mono_r; lia).
      set (B := 2 ^ Z.pos E) in *.
      assert (Z.pos p * B / 1000000 * 1000000 ≤ Z.pos p * B)
        by (Z.div_mod_to_equations; lia).
      nia.
    + destruct (of_ratio_million false p 63) as (M & E & -> & HE & HM); [lia|lia|].
      exists (S754_finite false M E). eexists. split; [done|].
      split; [reflexivity|]. cbn [F64.round_to_Z].
      destruct E as [|E|E]; try lia. cbn [F64.scaled_half_even].
      rewrite Z.mul_1_r.
      split; [|lia]. intros Hn. exfalso.
      destruct (div_half_even_4200 (Z.pos M) (2 ^ Z.pos E)) as [Hup _];
        [apply Z.pow_pos_nonneg; lia|].
      change (- Z.neg E) with (Z.pos E) in HM.
      assert (HB : 2 ^ Z.pos E = 2 * 2 ^ (Z.pos E - 1)).
      { rewrite <-Z.pow_succ_r by lia. f_equal. lia. }
      assert (0 < 2 ^ (Z.pos E - 1)) by (apply Z.pow_pos_nonneg; lia).
      set (B := 2 ^ (Z.pos E - 1)) in *. rewrite HB in *.
      assert (8399 * B ≤ Z.pos p * (2 * B) / 1000000).
      { apply Z.div_le_lower_bound; [lia|]. nia. }
      lia.
  - change (Z.neg p <? 0) with true. change (Z.abs (Z.neg p)) with (Z.pos p).
    destruct (of_ratio_million true p 63) as (M & E & -> & HE & HM); [lia|lia|].
    exists (S754_finite true M E). eexists. split; [done|].
    split; [reflexivity|]. cbn [F64.round_to_Z].
    destruct E as [|E|E]; try lia. cbn [F64.scaled_half_even].
    pose proof (div_half_even_nonneg (Z.pos M * 1) (2 ^ Z.pos E) ltac:(lia)
                  ltac:(apply Z.pow_pos_nonneg; lia)).
    lia.
Qed.

End Rounding.

Section Dates.

Lemma days_before_month_bounds (y m : Z) :
  1 ≤ m ≤ 12 → 0 ≤ days_before_month y m ≤ 335.
Proof.
  intros Hm. unfold days_before_month.
  assert (m = 1 ∨ m = 2 ∨ m = 3 ∨ m = 4 ∨ m = 5 ∨ m = 6 ∨ m = 7 ∨ m = 8
          ∨ m = 9 ∨ m = 10 ∨ m = 11 ∨ m = 12) as Hcases by lia.
  repeat destruct Hcases as [->|Hcases]; try subst m; simpl;
    destruct (is_leap y); simpl; lia.
Qed.

Lemma days_in_month_bound (y m : Z) : days_in_month y m ≤ 31.
Proof. unfold days_in_month. repeat case_match; lia. Qed.

Lemma valid_datetime_bounds (d : datetime) :
  valid_datetime d = true →
  1 ≤ toordinal d ≤ 4000000
  ∧ 0 ≤ hour d < 24 ∧ 0 ≤ minute d < 60 ∧ 0 ≤ second d < 60
  ∧ 0 ≤ microsecond d < 1000000.
Proof.
  unfold valid_datetime. intros H.
  repeat match type of H with
         | _ && _ = true => apply andb_prop in H as [H ?]
         end.
  pose proof (days_before_month_bounds (year d) (month d) ltac:(lia)).
  pose proof (days_in_month_bound (year d) (month d)).
  unfold toordinal, days_before_year.
  repeat split; try lia; Z.div_mod_to_equations; lia.
Qed.

(** The timedelta of two datetimes is far below [2^63] microseconds. *)
Lemma microseconds_between_bounds (a b : datetime) :
  valid_datetime a = true → valid_datetime b = true →
  - 2 ^ 63 < microseconds_between a b < 2 ^ 63.
Proof.
  intros Ha%valid_datetime_bounds Hb%valid_datetime_bounds.
  unfold microseconds_between. lia.
Qed.

Lemma microseconds_between_same (a : datetime) : microseconds_between a a = 0.
Proof. unfold microseconds_between. lia. Qed.

End Dates.

Section Freshness.

(** The answer of the freshness query: the limit of 4200 rounded seconds is
    a limit of 4199.5 seconds on the timedelta. *)
Lemma bool_graph_aqi_is_up_to_date_value (w : World) (self : GraphAqiUpdater) :
  valid_datetime (utcnow w) = true → valid_updatetime self = true →
  bool_graph_aqi_is_up_to_date w self
  = Ok (match aqi_data_updatetime self with
        | Some t => bool_decide (microseconds_between (utcnow w) t < 4199500000)
        | None => false
        end)
  ∧ get_aqi_updated_since_secs w self
    = match aqi_data_updatetime self with
      | Some t =>
          x ← total_seconds (microseconds_between (utcnow w) t);
          n ← py_round_int x; Ok (Some n)
      | None => Ok None
      end.
Proof.
  intros Hnow Ht. unfold valid_updatetime in Ht.
  unfold bool_graph_aqi_is_up_to_date, get_aqi_updated_since_secs.
  destruct (aqi_data_updatetime self) as [t|]; [|done].
  destruct (rounded_seconds (microseconds_between (utcnow w) t))
    as (x & n & Hx & Hn & Hiff); [by apply microseconds_between_bounds|].
  rewrite Hx. simpl. rewrite Hn. simpl. split; [|done]. f_equal.
  change (60 * 70) with 4200.
  destruct (Z.ltb_spec n 4200) as [Hlt|Hge].
  - symmetry. apply bool_decide_eq_true_2. by apply Hiff.
  - symmetry. apply bool_decide_eq_false_2. intros Hus. apply Hiff in Hus. lia.
Qed.

End Freshness.

(** C8, as the code has it: the freshness query answers [True] exactly when
    there was an update and the seconds since it, rounded to the nearest
    integer, are below 4200, that is, when less than 69 minutes and 59.5
    seconds have passed; it answers [False] before any update, [True] at the
    time of the update, and [False] once 70 minutes have passed. *)
Theorem freshness_by_rounded_seconds (w : World) (self : GraphAqiUpdater) :
  valid_datetime (utcnow w) = true → valid_updatetime self = true →
  (bool_graph_aqi_is_up_to_date w self = Ok true
   ↔ ∃ n, get_aqi_updated_since_secs w self = Ok (Some n) ∧ n < 60 * 70)
  ∧ (bool_graph_aqi_is_up_to_date w self = Ok true
     ↔ ∃ t, aqi_data_updatetime self = Some t
            ∧ microseconds_between (utcnow w) t < 4199500000)
  ∧ is_Ok (bool_graph_aqi_is_up_to_date w self)
  ∧ (aqi_data_updatetime self = None →
     bool_graph_aqi_is_up_to_date w self = Ok false)
  ∧ (aqi_data_updatetime self = Some (utcnow w) →
     bool_graph_aqi_is_up_to_date w self = Ok true)
  ∧ (∀ t, aqi_data_updatetime self = Some t →
          70 * 60 * 1000000 ≤ microseconds_between (utcnow w) t →
          bool_graph_aqi_is_up_to_date w self = Ok false).
Proof.
  intros Hnow Ht.
  destruct (bool_graph_aqi_is_up_to_date_value w self Hnow Ht) as [Hv Hs].
  split; [|split; [|split; [|split; [|split]]]].
  - clear Hv Hs. unfold bool_graph_aqi_is_up_to_date.
    destruct (aqi_data_updatetime self) as [t|] eqn:Hup.
    + destruct (get_aqi_updated_since_secs w self) as [[n|]|e]; simpl;
        try (split; [done|by intros (n' & ? & _)]).
      destruct (Z.ltb_spec n (60 * 70)); split; try done.
      * intros _. by exists n.
      * intros (n' & [= <-] & Hn'). lia.
    + split; [done|]. intros (n & Hn & _).
      unfold get_aqi_updated_since_secs in Hn. by rewrite Hup in Hn.
  - rewrite Hv. destruct (aqi_data_updatetime self) as [t|].
    + split.
      * intros [= Hb]. exists t. split; [done|].
        by apply bool_decide_eq_true in Hb.
      * intros (t' & [= <-] & Hlt). f_equal. by apply bool_decide_eq_true_2.
    + split; [done|]. by intros (t & ? & _).
  - rewrite Hv. by eexists.
  - intros Hnone. by rewrite Hv, Hnone.
  - intros Hsome. rewrite Hv, Hsome, microseconds_between_same. done.
  - intros t Hsome Hlate. rewrite Hv, Hsome. f_equal.
    apply bool_decide_eq_false_2. lia.
Qed.

(** A successful update records the time at which it completes. *)
Lemma read_update_records_time (w : World) (csv : string)
    (self : GraphAqiUpdater) :
  res (read_update_aqi_to_graph w csv self) = Ok () →
  aqi_data_updatetime (final (read_update_aqi_to_graph w csv self))
  = Some (utcnow_after w)
  ∧ aqi_data_latest (final (read_update_aqi_to_graph w csv self)) = csv
  ∧ aqi_data_wip (final (read_update_aqi_to_graph w csv self)) = "".
Proof.
  rewrite read_update_aqi_to_graph_run. cbv zeta.
  destruct (incoming_batch w csv) as [updates|e]; [|done].
  by destruct (_ ≫= _) as [aq_updates|e].
Qed.

(** The update of 17:05 completes at 17:05:02: the data is fresh at that
    time and 69 minutes and 59.4 seconds later; it is not fresh before the
    update and 70 minutes later. *)
Lemma freshness_by_rounded_seconds_witness :
  bool_graph_aqi_is_up_to_date (world_at 17 5 2 0) updated_17 = Ok true
  ∧ bool_graph_aqi_is_up_to_date (world_at 18 15 1 400000) updated_17 = Ok true
  ∧ bool_graph_aqi_is_up_to_date (world_at 18 15 2 0) updated_17 = Ok false
  ∧ bool_graph_aqi_is_up_to_date (world_at 17 5 2 0) (init two_edges) = Ok false.
Proof.
  split; [|split; [|split]].
  - destruct (freshness_by_rounded_seconds (world_at 17 5 2 0) updated_17
                eq_refl eq_refl) as (_ & _ & _ & _ & Hsame & _).
    apply Hsame. reflexivity.
  - destruct (freshness_by_rounded_seconds (world_at 18 15 1 400000) updated_17
                eq_refl eq_refl) as (_ & Hiff & _).
    apply Hiff. exists (on_2019_11_11 17 5 2 0). split; reflexivity.
  - destruct (freshness_by_rounded_seconds (world_at 18 15 2 0) updated_17
                eq_refl eq_refl) as (_ & _ & _ & _ & _ & Hlate).
    apply (Hlate (on_2019_11_11 17 5 2 0)); [reflexivity|discriminate].
  - destruct (freshness_by_rounded_seconds (world_at 17 5 2 0) (init two_edges)
                eq_refl eq_refl) as (_ & _ & _ & Hnone & _).
    apply Hnone. reflexivity.
Defined.

(** C8, as stated, fails: 69 minutes and 59.6 seconds after the update, which
    is less than 70 minutes, the rounded seconds are 4200 and the query
    answers [False]. *)
Lemma stale_before_70_minutes :
  aqi_data_updatetime updated_17 = Some (on_2019_11_11 17 5 2 0)
  ∧ microseconds_between (on_2019_11_11 18 15 1 600000) (on_2019_11_11 17 5 2 0)
    = 4199600000
  ∧ 4199600000 < 70 * 60 * 1000000
  ∧ get_aqi_updated_since_secs (world_at 18 15 1 600000) updated_17
    = Ok (Some 4200)
  ∧ bool_graph_aqi_is_up_to_date (world_at 18 15 1 600000) updated_17 = Ok false.
Proof. repeat split; vm_compute; reflexivity. Qed.

(** * Further properties of the code *)

(** ** The cost columns of the catalogue *)

Section Catalogue.

Lemma catalogue_convertible (subset : bool) :
  Forall (λ s, convertible s = true) (get_aq_sensitivities subset).
Proof. destruct subset; repeat constructor. Qed.

Lemma catalogue_names (subset : bool) :
  aqc_key <$> get_aq_sensitivities subset
  = if subset
    then ["aqc_0.2"; "aqc_0.5"; "aqc_1"; "aqc_3"; "aqc_6"; "aqc_10"; "aqc_20"]
    else ["aqc_0.2"; "aqc_0.5"; "aqc_1"; "aqc_3"; "aqc_6"; "aqc_10"; "aqc_20";
          "aqc_35"].
Proof. destruct subset; vm_compute; reflexivity. Qed.

Lemma catalogue_names_distinct (subset : bool) :
  NoDup (aqc_key <$> get_aq_sensitivities subset).
Proof.
  rewrite catalogue_names. destruct subset; apply (bool_decide_unpack _); by vm_compute.
Qed.

Lemma cost_entry_names index distance L (sens : list number) :
  (cost_entry index distance L <$> sens).*1 = aqc_key <$> sens.
Proof. by rewrite <- list_fmap_compose. Qed.

Lemma names_inj (sens : list number) (s s' : number) :
  NoDup (aqc_key <$> sens) → s ∈ sens → s' ∈ sens →
  aqc_key s = aqc_key s' → s = s'.
Proof.
  induction sens as [|x sens IH]; [by intros _ ?%elem_of_nil|].
  rewrite fmap_cons, NoDup_cons. intros [Hx Hnd].
  rewrite !elem_of_cons. intros [->|Hs] [->|Hs'] Heq; auto.
  - exfalso. apply Hx. rewrite Heq. by apply list_elem_of_fmap_2.
  - exfalso. apply Hx. rewrite <- Heq. by apply list_elem_of_fmap_2.
Qed.

Lemma cost_dict_lookup index distance L (sens : list number) (s : number) :
  NoDup (aqc_key <$> sens) → s ∈ sens →
  dict_of (cost_entry index distance L <$> sens) !! aqc_key s
  = Some (cost_entry index distance L s).2.
Proof.
  intros Hnd Hs. apply dict_of_lookup.
  - apply list_elem_of_fmap. by exists s.
  - intros v' (s' & Heq & Hs')%list_elem_of_fmap.
    assert (s = s') as <-; [|by rewrite <- Heq].
    apply (names_inj sens); [done..|]. exact (f_equal fst Heq).
Qed.

End Catalogue.

(** X1: for every exposure and base length of floats, the fan-out over the
    catalogue of sensitivities succeeds; its keys are exactly the names
    [aqc_0.2], [aqc_0.5], [aqc_1], [aqc_3], [aqc_6], [aqc_10], [aqc_20], and
    [aqc_35] for the full catalogue, and each sensitivity has its cost under
    its name. *)
Theorem catalogue_cost_columns (subset : bool) (index distance L : float) :
  ∃ costs,
    get_aqi_costs (exposure (index, distance)) (get_aq_sensitivities subset)
      (VFloat L) = Ok costs
    ∧ dom costs
      = list_to_set
          (if subset
           then ["aqc_0.2"; "aqc_0.5"; "aqc_1"; "aqc_3"; "aqc_6"; "aqc_10";
                 "aqc_20"]
           else ["aqc_0.2"; "aqc_0.5"; "aqc_1"; "aqc_3"; "aqc_6"; "aqc_10";
                 "aqc_20"; "aqc_35"])
    ∧ ∀ s, s ∈ get_aq_sensitivities subset →
           costs !! aqc_key s = Some (cost_entry index distance L s).2.
Proof.
  exists (dict_of (cost_entry index distance L <$> get_aq_sensitivities subset)).
  split; [apply get_aqi_costs_dict, catalogue_convertible|]. split.
  - by rewrite dict_of_dom, cost_entry_names, catalogue_names.
  - intros s Hs. apply cost_dict_lookup; [apply catalogue_names_distinct|done].
Qed.

(** X2: when the sensitivities of one fan-out are among those of another,
    whose names are distinct, every cost column of the first is a column of
    the second with the same value; so the columns of the subset of the
    catalogue are columns of the full catalogue. *)
Theorem costs_of_fewer_sensitivities (index distance L : float)
    (sens1 sens2 : list number) :
  sens1 ⊆ sens2 → Forall (λ s, convertible s = true) sens2 →
  NoDup (aqc_key <$> sens2) →
  ∃ costs1 costs2,
    get_aqi_costs (exposure (index, distance)) sens1 (VFloat L) = Ok costs1
    ∧ get_aqi_costs (exposure (index, distance)) sens2 (VFloat L) = Ok costs2
    ∧ costs1 ⊆ costs2.
Proof.
  intros Hsub Hconv Hnd.
  assert (Hconv1 : Forall (λ s, convertible s = true) sens1).
  { rewrite Forall_forall in Hconv |- *. auto. }
  do 2 eexists. split; [by apply get_aqi_costs_dict|].
  split; [by apply get_aqi_costs_dict|].
  apply map_subseteq_spec. intros k v Hk.
  apply dict_of_lookup_Some, list_elem_of_fmap in Hk as (s & [= -> ->] & Hs).
  by apply (cost_dict_lookup index distance L sens2 s Hnd), Hsub.
Qed.

Lemma costs_of_fewer_sensitivities_witness :
  ∃ costs1 costs2,
    get_aqi_costs (exposure (F64.lit 3 1, F64.lit 10 1))
      (get_aq_sensitivities true) (VFloat (F64.lit 10 1)) = Ok costs1
    ∧ get_aqi_costs (exposure (F64.lit 3 1, F64.lit 10 1))
        (get_aq_sensitivities false) (VFloat (F64.lit 10 1)) = Ok costs2
    ∧ costs1 ⊆ costs2.
Proof.
  apply costs_of_fewer_sensitivities.
  - intros s Hs.
    change (get_aq_sensitivities false)
      with (get_aq_sensitivities true ++ [NInt 35]).
    apply elem_of_app. by left.
  - repeat constructor.
  - apply (bool_decide_unpack _). by vm_compute.
Defined.

(** ** Exposures of clean air *)

Section ZeroCost.

Lemma mul_zero_r (d : float) (b : bool) :
  F64.is_finite d = true → F64.is_zero (F64.mul d (S754_zero b)) = true.
Proof. by destruct d. Qed.

Lemma mul_zero_l (z s : float) :
  F64.is_zero z = true → F64.is_finite s = true →
  F64.is_zero (F64.mul z s) = true.
Proof. by destruct z, s. Qed.

Lemma round_zero (z : float) :
  F64.is_zero z = true → F64.is_zero (F64.round_ndigits2 z) = true.
Proof. destruct z; simpl; done. Qed.

Lemma add_zero (y z : float) :
  F64.is_zero y = true → F64.is_zero z = true →
  F64.is_zero (F64.add y z) = true.
Proof. destruct y as [[]| | |], z as [[]| | |]; simpl; done. Qed.

Lemma cost_at_index_1 (d : float) (s : number) :
  F64.is_finite d = true → F64.is_finite (num_float s) = true →
  ∃ z, get_aqi_cost_from_exp (exposure (F64.lit 1 1, d)) (num_val s)
       = Ok (VFloat z) ∧ F64.is_zero z = true.
Proof.
  intros Hd Hs. unfold get_aqi_cost_from_exp, exposure.
  cbn [py_index lookup list_lookup fst snd mbind result_bind].
  change (get_aqi_coeff (VFloat (F64.lit 1 1)))
    with (Ok (VFloat (S754_zero false))).
  cbn [mbind result_bind py_mul as_float].
  exists (F64.round_ndigits2
            (F64.mul (F64.mul d (S754_zero false)) (num_float s))).
  split.
  - destruct s as [z|x]; cbn [num_val num_float py_mul as_float
                                mbind result_bind py_round2] in *; [|done].
    unfold float_of_int. by rewrite Hs.
  - by apply round_zero, mul_zero_l; [apply mul_zero_r|].
Qed.

Lemma py_sum_snoc (l : list pyval) (x : pyval) :
  py_sum (l ++ [x]) = (a ← py_sum l; py_add a x).
Proof. unfold py_sum. by rewrite foldl_app. Qed.

End ZeroCost.

(** X3: at the pollution index 1.0 an exposure of a finite distance costs
    zero for a finite sensitivity, and the total cost of such exposures is
    zero: the [int] 0 of the empty sum, or a float zero. *)
Theorem clean_air_costs_nothing (ds : list float) (s : number) :
  Forall (λ d, F64.is_finite d = true) ds →
  F64.is_finite (num_float s) = true →
  Forall (λ d, ∃ c, get_aqi_cost_from_exp (exposure (F64.lit 1 1, d)) (num_val s)
                    = Ok c ∧ zero_value c = true) ds
  ∧ ∃ total,
      get_total_aqi_cost_from_exps
        ((λ d, exposure (F64.lit 1 1, d)) <$> ds) (num_val s) = Ok total
      ∧ zero_value total = true.
Proof.
  intros Hds Hs. split.
  - eapply Forall_impl; [exact Hds|]. intros d Hd.
    destruct (cost_at_index_1 d s Hd Hs) as (z & Hz & Hzero). by exists (VFloat z).
  - unfold get_total_aqi_cost_from_exps.
    induction ds as [|d ds IH] using rev_ind; [by exists (VInt 0)|].
    apply Forall_app in Hds as [Hds Hd]. apply Forall_inv in Hd.
    destruct (IH Hds) as (total & Ht & Hzero).
    destruct (cost_at_index_1 d s Hd Hs) as (z & Hz & Hzz).
    apply bind_Ok_inv in Ht as (costs & Hc & Ht).
    rewrite fmap_app. simpl.
    assert (Hm : mapM (λ aqi_exp, get_aqi_cost_from_exp aqi_exp (num_val s))
                   (((λ d, exposure (F64.lit 1 1, d)) <$> ds)
                    ++ [exposure (F64.lit 1 1, d)])
                 = Ok (costs ++ [VFloat z])).
    { apply mapM_Ok, Forall2_app; [by apply mapM_Ok|]. by repeat constructor. }
    rewrite Hm. simpl. rewrite py_sum_snoc, Ht. simpl.
    destruct total as [|n|y| |]; try done; simpl in *.
    + apply Z.eqb_eq in Hzero as ->. eexists; split; [reflexivity|].
      by destruct z as [[]| | |].
    + eexists; split; [reflexivity|]. simpl. by apply add_zero.
Qed.

Lemma clean_air_costs_nothing_witness :
  Forall (λ d, ∃ c, get_aqi_cost_from_exp (exposure (F64.lit 1 1, d))
                      (num_val (NInt 3)) = Ok c ∧ zero_value c = true)
    [F64.lit 10 1; F64.lit 255 10]
  ∧ ∃ total,
      get_total_aqi_cost_from_exps
        ((λ d, exposure (F64.lit 1 1, d)) <$> [F64.lit 10 1; F64.lit 255 10])
        (num_val (NInt 3)) = Ok total
      ∧ zero_value total = true.
Proof. apply clean_air_costs_nothing; [by repeat constructor|reflexivity]. Defined.

(** ** The order of the classes *)

Section ClassOrder.

Local Ltac order_cases :=
  repeat match goal with
    | |- context [Pos.compare_cont Eq ?p ?q] =>
        rewrite (Pos.compare_cont_spec p q Eq); simpl Pos.switch_Eq
    | H : context [Pos.compare_cont Eq ?p ?q] |- _ =>
        rewrite (Pos.compare_cont_spec p q Eq) in H; simpl Pos.switch_Eq in H
    end;
  repeat match goal with
    | |- context [(?a ?= ?b)%Z] => destruct (Z.compare_spec a b)
    | H : context [(?a ?= ?b)%Z] |- _ => destruct (Z.compare_spec a b)
    | |- context [(?a ?= ?b)%positive] => destruct (Pos.compare_spec a b)
    | H : context [(?a ?= ?b)%positive] |- _ => destruct (Pos.compare_spec a b)
    end;
  simpl in *; try done; try lia.

Lemma leb_ltb_trans (x y z : float) :
  F64.leb x y = true → F64.ltb y z = true → F64.ltb x z = true.
Proof.
  unfold F64.leb, F64.ltb, SFleb, SFltb.
  destruct x as [sx|sx| |sx mx ex], y as [sy|sy| |sy my ey],
    z as [sz|sz| |sz mz ez]; simpl;
    try destruct sx; try destruct sy; try destruct sz; simpl; try done;
    order_cases.
Qed.

Lemma ltb_leb_trans (x y z : float) :
  F64.ltb x y = true → F64.leb y z = true → F64.ltb x z = true.
Proof.
  unfold F64.leb, F64.ltb, SFleb, SFltb.
  destruct x as [sx|sx| |sx mx ex], y as [sy|sy| |sy my ey],
    z as [sz|sz| |sz mz ez]; simpl;
    try destruct sx; try destruct sy; try destruct sz; simpl; try done;
    order_cases.
Qed.

(** Two floats that are numbers compare one way or the other. *)
Lemma leb_of_ltb_false (x y : float) :
  x ≠ F64.nan → y ≠ F64.nan → F64.ltb x y = false → F64.leb y x = true.
Proof.
  unfold F64.leb, F64.ltb, SFleb, SFltb, F64.nan.
  destruct x as [sx|sx| |sx mx ex], y as [sy|sy| |sy my ey]; simpl;
    try destruct sx; try destruct sy; simpl; try done; order_cases.
Qed.

Lemma leb_nan_r (x : float) : F64.leb x F64.nan = false.
Proof. by destruct x as [| | |[]]. Qed.

Lemma eqb_not_ltb (x y : float) : F64.eqb x y = true → F64.ltb x y = false.
Proof.
  unfold F64.eqb, F64.ltb, SFeqb, SFltb. by destruct (SFcompare x y) as [[]|].
Qed.

End ClassOrder.

(** X4: the class does not decrease when the index increases. *)
Theorem get_aqi_class_monotone (p q : float) :
  F64.leb p q = true → get_aqi_class p ≤ get_aqi_class q.
Proof.
  intros Hpq. unfold get_aqi_class.
  repeat match goal with
         | |- context [F64.ltb q ?t] =>
             let H := fresh "Hq" in
             destruct (F64.ltb q t) eqn:H;
             [rewrite (leb_ltb_trans p q t Hpq H)|]
         end; try (repeat case_match; lia).
  destruct (F64.leb (F64.lit 5 1) q) eqn:H5; [repeat case_match; lia|].
  assert (q = F64.nan) as ->; [|by rewrite leb_nan_r in Hpq].
  destruct q as [sq|sq| |sq mq eq]; [| |done|];
    by rewrite (leb_of_ltb_false _ (F64.lit 5 1)) in H5.
Qed.

Lemma get_aqi_class_monotone_witness :
  get_aqi_class (F64.lit 25 10) ≤ get_aqi_class (F64.lit 41 10).
Proof. apply get_aqi_class_monotone. reflexivity. Defined.

(** X5: the class 0 of the last branch is returned for NaN only; every other
    float, the infinities and the negative ones included, gets one of the
    classes 1 to 5. *)
Theorem get_aqi_class_zero_iff_nan (p : float) :
  (get_aqi_class p = 0 ↔ p = F64.nan)
  ∧ (p ≠ F64.nan → 1 ≤ get_aqi_class p ≤ 5).
Proof.
  assert (Hn : p ≠ F64.nan → 1 ≤ get_aqi_class p ≤ 5).
  { intros Hp. unfold get_aqi_class. repeat case_match; try lia.
    by rewrite (leb_of_ltb_false p (F64.lit 5 1)) in *. }
  split; [|done]. split; [|by intros ->].
  intros H0. destruct p as [sp|sp| |sp mp ep]; [| |done|];
    (unshelve epose proof (Hn _) as Hp; [done|lia]).
Qed.

(** ** Class exposures, link estimates and the validators of floats *)

Section Aggregation.

Lemma class_exps_from (m : gmap Z float) (l : list (float * float)) (c : Z) :
  foldl add_class_exp m (get_aqi_class_exp_list l) !! c
  = match m !! c, class_distances c l with
    | Some y, ds => Some (foldl F64.add y ds)
    | None, d :: ds => Some (foldl F64.add d ds)
    | None, [] => None
    end.
Proof.
  revert m. induction l as [|[a x] l IH]; intros m.
  - simpl. by destruct (m !! c).
  - unfold get_aqi_class_exp_list. rewrite fmap_cons. cbn [foldl fst snd].
    fold (get_aqi_class_exp_list l). rewrite IH. clear IH.
    unfold class_distances, add_class_exp. cbn [fst snd].
    rewrite filter_cons. cbn [fst snd].
    destruct (decide (get_aqi_class a = c)) as [<-|Hne].
    + rewrite fmap_cons. cbn [snd].
      destruct (m !! get_aqi_class a) as [y|];
        by rewrite lookup_insert_eq.
    + destruct (m !! get_aqi_class a) as [y|];
        by rewrite lookup_insert_ne.
Qed.

End Aggregation.

(** X6: the exposure that [aggregate_aqi_class_exps] gives a class depends on
    the exposures of that class only: it is the sum of their distances, added
    from the left in the order of the list, rounded to two decimals; a class
    with no exposure has no key. *)
Theorem aggregate_aqi_class_exps_lookup (l : list (float * float)) (c : Z) :
  aggregate_aqi_class_exps l !! c
  = match class_distances c l with
    | [] => None
    | d :: ds => Some (F64.round_ndigits2 (foldl F64.add d ds))
    end.
Proof.
  unfold aggregate_aqi_class_exps. cbv zeta.
  rewrite lookup_fmap, class_exps_from, lookup_empty.
  by destruct (class_distances c l).
Qed.

Example aggregate_aqi_class_exps_example :
  aggregate_aqi_class_exps
    [(F64.lit 15 10, F64.lit 10 1); (F64.lit 11 10, F64.lit 5 1);
     (F64.lit 27 10, F64.lit 20 1)]
  = {[ 1 := F64.lit 15 1; 2 := F64.lit 20 1 ]}.
Proof. vm_compute. reflexivity. Qed.

Section Percentages.

Lemma class_pcts_entries (length : float) (l : list (Z * float)) :
  F64.is_zero length = false →
  mapM (λ kv, pct ← class_pct length kv.2; Ok (kv.1, pct)) l
  = Ok (prod_map id (pct_of length) <$> l).
Proof.
  intros Hz. induction l as [|[k x] l IH]; [done|].
  rewrite mapM_cons, IH. unfold class_pct. by rewrite Hz.
Qed.

End Percentages.

(** X7: [get_aqi_class_pcts] returns the share [round(x*100/length, 2)] under
    every key of the dictionary; on a length of zero it raises
    [ZeroDivisionError], unless the dictionary is empty, where it returns the
    empty dictionary. *)
Theorem get_aqi_class_pcts_value (aqi_cl_exps : gmap Z float) (length : float) :
  get_aqi_class_pcts aqi_cl_exps length
  = if F64.is_zero length
    then (if decide (aqi_cl_exps = ∅) then Ok ∅ else Raise ZeroDivisionError)
    else Ok (pct_of length <$> aqi_cl_exps).
Proof.
  unfold get_aqi_class_pcts. destruct (F64.is_zero length) eqn:Hz.
  - case_decide as He; [subst; by rewrite map_to_list_empty|].
    destruct (map_to_list aqi_cl_exps) as [|[k x] l] eqn:Hl;
      [by apply map_to_list_empty_iff in Hl|].
    rewrite mapM_cons. unfold class_pct. by rewrite Hz.
  - rewrite class_pcts_entries by done. simpl. f_equal.
    by rewrite list_to_map_fmap, list_to_map_to_list.
Qed.

Section LinkEdge.

Lemma get_aqi_costs_of_tuple (a d L : float) (rest : list pyval)
    (sens : list number) :
  Forall (λ s, convertible s = true) sens →
  get_aqi_costs (VTuple (VFloat a :: VFloat d :: rest)) sens (VFloat L)
  = Ok (dict_of (cost_entry a d L <$> sens)).
Proof.
  intros Hs. rewrite <- (get_aqi_costs_dict a d L sens Hs).
  unfold get_aqi_costs, exposure. cbn [py_index lookup list_lookup fst snd].
  reflexivity.
Qed.

End LinkEdge.

(** X8: for sensitivities in the range of floats, the estimates of a linking
    edge are empty when the edge has no [aqi_exp], or one that is no tuple or
    whose first item is no float; an empty tuple raises [IndexError];
    otherwise the result holds the exposure [(index, round(length, 2))] of
    the link under [aqi_exp] and the cost columns of that exposure on the
    unrounded length of the link, whatever else the tuple of the edge
    holds. *)
Theorem link_edge_estimates (sens : list number)
    (edge_dict : gmap string pyval) (link_geom_length : float) :
  Forall (λ s, convertible s = true) sens →
  get_link_edge_aqi_cost_estimates sens edge_dict link_geom_length
  = match edge_dict !! "aqi_exp" with
    | Some (VTuple (VFloat a :: _)) =>
        let d := F64.round_ndigits2 link_geom_length in
        Ok (dict_of (cost_entry a d link_geom_length <$> sens)
            ∪ {[ "aqi_exp" := exposure (a, d) ]})
    | Some (VTuple []) => Raise IndexError
    | _ => Ok ∅
    end.
Proof.
  intros Hs. unfold get_link_edge_aqi_cost_estimates.
  destruct (edge_dict !! "aqi_exp") as [[| | | |[|[| |a| |] l]]|]; try done.
  cbn [isinstance_tuple negb py_index lookup list_lookup mbind result_bind
       isinstance_float].
  by rewrite (get_aqi_costs_of_tuple a _ link_geom_length [] sens Hs).
Qed.

Lemma link_edge_estimates_witness :
  get_link_edge_aqi_cost_estimates (get_aq_sensitivities true)
    {[ "aqi_exp" := exposure (F64.lit 3 1, F64.lit 50 1) ]} (F64.lit 12345 1000)
  = Ok (dict_of (cost_entry (F64.lit 3 1) (F64.lit 1235 100)
                   (F64.lit 12345 1000) <$> get_aq_sensitivities true)
        ∪ {[ "aqi_exp" := exposure (F64.lit 3 1, F64.lit 1235 100) ]}).
Proof.
  rewrite link_edge_estimates by repeat constructor.
  vm_compute. reflexivity.
Defined.

Section Acceptance.

Lemma aqi_code_accepted (v : pyval) :
  validate_df_aqi__validate_aqi_exp v ≤ 1 ↔ aqi_accepted v = true.
Proof.
  destruct v as [| |x| |]; simpl; try (split; [lia|done]).
  destruct (F64.eqb x (F64.lit 0 1)) eqn:He.
  - rewrite (eqb_not_ltb _ _ He). by split.
  - destruct (F64.ltb x (F64.lit 0 1)); simpl; split; (lia || done).
Qed.

Lemma aqi_exp_code_accepted (v : pyval) :
  (∃ c, validate_df_aqi_exps__validate_aqi_exp v = Ok c ∧ c ≤ 1)
  ↔ aqi_exp_accepted v = true.
Proof.
  destruct v as [| | | |[|[| |x| |] [|[| |y| |] l]]]; simpl;
    try (split; [by intros (c & [= <-] & ?)|done]);
    try (split; [by intros (c & ? & _)|done]).
  destruct (F64.eqb x (F64.lit 0 1)) eqn:He; simpl.
  { split; [done|]. intros _. by exists 1. }
  destruct (F64.ltb x (F64.lit 1 1)) eqn:H1; simpl.
  { split; [|done]. intros (c & [= <-] & Hc). by case_match. }
  assert (H0 : F64.ltb x (F64.lit 0 1) = false).
  { destruct (F64.ltb x (F64.lit 0 1)) eqn:H0; [|done].
    by rewrite (ltb_leb_trans x (F64.lit 0 1) (F64.lit 1 1) H0) in H1. }
  rewrite H0. destruct (F64.ltb y (F64.lit 0 1)); simpl.
  - split; [|done]. by intros (c & [= <-] & Hc).
  - split; [done|]. intros _. by exists 0.
Qed.

Lemma forallb_Forall {A} (f : A → bool) (l : list A) :
  forallb f l = true ↔ Forall (λ x, f x = true) l.
Proof.
  induction l as [|x l IH]; simpl; [by split|].
  rewrite andb_true_iff, Forall_cons. by rewrite IH.
Qed.

End Acceptance.

(** X9: with [debug_to_file = False], [validate_df_aqi] raises on no column,
    the empty one included, and returns [True] exactly when every cell is a
    float that is not below zero; NaN and the infinity pass. *)
Theorem validate_df_aqi_value (aqi_col : list pyval) :
  validate_df_aqi aqi_col = Ok (forallb aqi_accepted aqi_col).
Proof.
  assert (Hiff : length (validate_df_aqi__validate_aqi_exp <$> aqi_col)
                 = length (filter (λ c, c ≤ 1)
                             (validate_df_aqi__validate_aqi_exp <$> aqi_col))
                 ↔ forallb aqi_accepted aqi_col = true).
  { rewrite all_counted, forallb_Forall, Forall_fmap.
    apply Forall_iff. intros v. apply aqi_code_accepted. }
  unfold validate_df_aqi. cbv zeta. case_decide as Hc.
  - apply Hiff in Hc. by rewrite Hc.
  - rewrite logged_ratio_Ok by done. simpl.
    destruct (forallb aqi_accepted aqi_col); [|done].
    exfalso. by apply Hc, Hiff.
Qed.

(** X10: [validate_df_aqi_exps] returns [True] exactly when every record
    starts with two floats, index and distance, such that the index equals
    zero, or the index is not below 1 and the distance is not below 0: a
    record of index zero passes with any distance, and NaN passes. *)
Theorem validate_df_aqi_exps_accepts (aqi_exp_col : list pyval) :
  validate_df_aqi_exps aqi_exp_col = Ok true
  ↔ forallb aqi_exp_accepted aqi_exp_col = true.
Proof.
  rewrite validate_df_aqi_exps_true, forallb_Forall.
  apply Forall_iff. intros v. apply aqi_exp_code_accepted.
Qed.

Example validate_df_aqi_exps_accepts_examples :
  validate_df_aqi_exps [VTuple [VFloat (F64.lit 0 1); VFloat (F64.lit (-5) 1)];
                        VTuple [VFloat F64.nan; VFloat F64.nan]] = Ok true
  ∧ validate_df_aqi [VFloat F64.nan; VFloat (F64.lit 0 1)] = Ok true.
Proof. split; vm_compute; reflexivity. Qed.

(** ** Triggers of the update *)

Section Triggers.

Lemma maybe_read_update_idle (w : World) (self : GraphAqiUpdater) :
  res (new_aqi_data_available w self) = Ok None →
  seen (maybe_read_update_aqi_to_graph w self) = []
  ∧ final (maybe_read_update_aqi_to_graph w self)
    = final (new_aqi_data_available w self)
  ∧ res (maybe_read_update_aqi_to_graph w self) = Ok ().
Proof.
  intros Hnew. destruct (new_aqi_data_available_spec w self) as (Hseen & _ & _).
  unfold maybe_read_update_aqi_to_graph, mbind, method_bind.
  destruct (new_aqi_data_available w self) as [s0 f0 r0].
  cbn [seen final res] in *. by subst s0 r0.
Qed.

(** The file a check proposes is the expected one. *)
Lemma new_aqi_data_available_Some (w : World) (self : GraphAqiUpdater) csv :
  res (new_aqi_data_available w self) = Ok (Some csv) →
  csv = get_expected_aqi_data_name w.
Proof.
  destruct (new_aqi_data_available_spec w self) as (_ & _ & ->).
  repeat case_decide; try done.
  destruct (listdir w) as [names|e]; simpl; [|done].
  case_decide; by intros [= <-].
Qed.

(** Where a cycle leaves the name of its file: in the latest file when it
    succeeds, in the marker when it fails. *)
Lemma read_update_aqi_to_graph_names (w : World) (csv : string)
    (self : GraphAqiUpdater) :
  let o := read_update_aqi_to_graph w csv self in
  sens (final o) = sens self
  ∧ match res o with
    | Ok _ => aqi_data_latest (final o) = csv
    | Raise _ => aqi_data_wip (final o) = csv
                  ∧ aqi_data_latest (final o) = aqi_data_latest self
    end.
Proof.
  rewrite read_update_aqi_to_graph_run. cbv zeta.
  destruct (incoming_batch w csv) as [updates|e]; [|done].
  by destruct (_ ≫= _) as [aq_updates|e].
Qed.

End Triggers.

(** X11: the scheduled trigger lets no exception of an update cycle out: it
    raises exactly when its check comes to list the directory, the expected
    file being neither the latest one nor the one in progress, and the
    listing raises; it then raises that exception, stores nothing and leaves
    the updater as it was.  In every case the sensitivities stay as they are,
    and the latest file is the one of before or the expected file. *)
Theorem trigger_raises_only_from_listing (w : World) (self : GraphAqiUpdater) :
  let o := maybe_read_update_aqi_to_graph w self in
  let csv := get_expected_aqi_data_name w in
  (∀ e, res o = Raise e
        ↔ csv ≠ aqi_data_latest self ∧ csv ≠ aqi_data_wip self
          ∧ listdir w = Raise e)
  ∧ (∀ e, res o = Raise e → seen o = [] ∧ final o = self)
  ∧ (aqi_data_latest (final o) = aqi_data_latest self
     ∨ aqi_data_latest (final o) = csv)
  ∧ sens (final o) = sens self.
Proof.
  cbv zeta.
  destruct (new_aqi_data_available_spec w self)
    as (Hseen & (_ & Hsens & _ & Hlatest & _) & Hspec).
  destruct (res (new_aqi_data_available w self)) as [[csv|]|e] eqn:Hnew.
  - pose proof (new_aqi_data_available_Some w self csv Hnew) as Hcsv.
    rewrite (maybe_read_update_run w self csv Hnew). cbv zeta.
    pose proof (read_update_aqi_to_graph_names w csv
                  (final (new_aqi_data_available w self))) as [Hs Hnames].
    assert (Hlist : ∀ e, listdir w ≠ Raise e).
    { intros e He. rewrite He in Hspec. by repeat case_decide. }
    destruct (read_update_aqi_to_graph w csv _) as [s1 f1 [[]|e]];
      cbn [seen final res set_aqi_update_status aqi_data_latest sens] in *.
    + split; [|split; [done|]].
      * intros e. split; [done|]. intros (_ & _ & He). by apply Hlist in He.
      * split; [right; congruence|congruence].
    + split; [|split; [done|]].
      * intros e'. split; [done|]. intros (_ & _ & He). by apply Hlist in He.
      * destruct Hnames as [_ Hl]. split; [left; congruence|congruence].
  - destruct (maybe_read_update_idle w self Hnew) as (_ & -> & ->).
    split; [|split; [done|]].
    + intros e. split; [done|]. intros (H1 & H2 & He).
      rewrite He in Hspec. by repeat case_decide.
    + split; [by left|done].
  - destruct (new_aqi_data_available_raise w self e Hnew)
      as (Hfinal & He & H1 & H2).
    assert (Ho : maybe_read_update_aqi_to_graph w self
                 = {| seen := []; final := self; res := Raise e |}).
    { unfold maybe_read_update_aqi_to_graph, mbind, method_bind.
      destruct (new_aqi_data_available w self) as [s0 f0 r0].
      cbn [seen final res] in *. by subst. }
    rewrite Ho. cbn [seen final res]. split; [|split; [|split]].
    + intros e'. split; [by intros [= <-]|]. intros (_ & _ & He').
      congruence.
    + done.
    + by left.
    + done.
Qed.

(** At 17:05, with no directory to list, the trigger on a new updater
    raises [FileNotFoundError]. *)
Example trigger_raises_without_directory :
  res (maybe_read_update_aqi_to_graph world_17_no_dir (init two_edges))
  = Raise FileNotFoundError.
Proof. reflexivity. Qed.

(** X12: at most one cycle runs for an expected file: after a trigger that
    started a cycle, a trigger that expects the same file stores nothing and
    changes the status text only, whether the cycle succeeded or failed. *)
Theorem one_cycle_per_hour (w1 w2 : World) (self : GraphAqiUpdater)
    (csv : string) :
  res (new_aqi_data_available w1 self) = Ok (Some csv) →
  get_expected_aqi_data_name w2 = get_expected_aqi_data_name w1 →
  let o1 := maybe_read_update_aqi_to_graph w1 self in
  let o2 := maybe_read_update_aqi_to_graph w2 (final o1) in
  seen o2 = [] ∧ same_but_status (final o2) (final o1) ∧ res o2 = Ok ().
Proof.
  intros Hnew Hsame. cbv zeta.
  pose proof (new_aqi_data_available_Some w1 self csv Hnew) as Hcsv.
  set (self1 := final (maybe_read_update_aqi_to_graph w1 self)).
  assert (Hmark : aqi_data_latest self1 = csv ∨ aqi_data_wip self1 = csv).
  { unfold self1. rewrite (maybe_read_update_run w1 self csv Hnew). cbv zeta.
    destruct (read_update_aqi_to_graph_names w1 csv
                (final (new_aqi_data_available w1 self))) as [_ Hnames].
    destruct (read_update_aqi_to_graph w1 csv _) as [s1 f1 [[]|e]];
      cbn [seen final res set_aqi_update_status aqi_data_latest
           aqi_data_wip] in *.
    - by left.
    - right. by destruct Hnames. }
  destruct (new_aqi_data_available_spec w2 self1) as (_ & Hst & Hres).
  assert (Hnone : res (new_aqi_data_available w2 self1) = Ok None).
  { rewrite Hres, Hsame, <- Hcsv. repeat case_decide; try done;
      destruct Hmark; congruence. }
  destruct (maybe_read_update_idle w2 self1 Hnone) as (-> & -> & ->).
  done.
Qed.

Lemma one_cycle_per_hour_witness :
  let o1 := maybe_read_update_aqi_to_graph world_17 (init two_edges) in
  let o2 := maybe_read_update_aqi_to_graph world_17_no_distance (final o1) in
  seen o2 = [] ∧ same_but_status (final o2) (final o1) ∧ res o2 = Ok ().
Proof.
  apply (one_cycle_per_hour world_17 world_17_no_distance (init two_edges)
           file_17); reflexivity.
Defined.

Section ValidBatch.

Lemma valid_record_shape (v : pyval) :
  validate_aqi_exps__validate_aqi_exp v = Ok true →
  ∃ a d rest, v = VTuple (VFloat a :: VFloat d :: rest).
Proof.
  destruct v as [| | | |[|[| |a| |] [|[| |d| |] rest]]]; try done. by eauto.
Qed.

Lemma get_aq_update_attrs_of_tuple (self : GraphAqiUpdater) (a d : float)
    (rest : list pyval) :
  Forall (λ s, convertible s = true) (sens self) →
  get_aq_update_attrs self (VTuple (VFloat a :: VFloat d :: rest))
  = Ok (dict_of (cost_entry a d d <$> sens self) ∪ {[ "aqi" := VFloat a ]}).
Proof.
  intros Hs. unfold get_aq_update_attrs.
  cbn [py_index lookup list_lookup mbind result_bind].
  by rewrite (get_aqi_costs_of_tuple a d d rest (sens self) Hs).
Qed.

(** A row of the merged table has the exposure of an update row, or NaN. *)
Lemma merge_left_values (left : DataFrame) (updates : list (uvkey * pyval))
    (v : pyval) (rows : list (uvkey * pyval)) :
  merge_left left updates = EdgesExp rows → v ∈ rows.*2 →
  v = VFloat F64.nan ∨ v ∈ updates.*2.
Proof.
  intros [= <-] (r & -> & Hr)%list_elem_of_fmap.
  apply list_elem_of_bind in Hr as (k & Hr & _).
  destruct (filter _ updates) as [|r' l] eqn:Hf.
  - apply list_elem_of_singleton in Hr as ->. by left.
  - right. rewrite <- Hf in Hr. apply list_elem_of_filter in Hr as [_ Hr].
    by apply list_elem_of_fmap_2.
Qed.

End ValidBatch.

(** For a batch that passes the type validation, the validation of the merged
    table returns and the attributes of every record are computed. *)
Lemma valid_batch_attrs (self : GraphAqiUpdater) (left : DataFrame)
    (updates : list (uvkey * pyval)) :
  validate_aqi_exps (EdgesExp updates) = Ok true →
  Forall (λ s, convertible s = true) (sens self) →
  is_Ok (validate_aqi_exps (merge_left left updates) ≫= λ _,
         mapM (get_aq_update_attrs self) updates.*2).
Proof.
  intros Hvalid Hsens.
  apply validate_aqi_exps_true in Hvalid. rewrite Forall_forall in Hvalid.
  assert (Hm : is_Ok (validate_aqi_exps (merge_left left updates))).
  { destruct (merge_left left updates) as [|rows] eqn:Hmerge; [done|].
    unfold validate_aqi_exps. simpl.
    destruct (mapM_is_Ok validate_aqi_exps__validate_aqi_exp rows.*2)
      as [oks ->]; [|by eexists].
    apply Forall_forall. intros v Hv.
    destruct (merge_left_values _ _ v rows Hmerge Hv) as [->|Hin];
      [by eexists|]. exists true. by apply Hvalid. }
  destruct Hm as [ok ->]. simpl. apply mapM_is_Ok, Forall_forall.
  intros v Hv.
  destruct (valid_record_shape v (Hvalid v Hv)) as (a & d & rest & ->).
  eexists. by apply get_aq_update_attrs_of_tuple.
Qed.

(** X13: a batch that is read and passes the type validation makes the cycle
    succeed, for sensitivities in the range of floats: two datasets are
    stored, the file becomes the latest one, the marker is cleared and the
    time of completion is recorded. *)
Theorem valid_batch_completes (w : World) (csv : string)
    (self : GraphAqiUpdater) (updates : list (uvkey * pyval)) :
  read_csv w csv = Ok updates →
  validate_aqi_exps (EdgesExp updates) = Ok true →
  Forall (λ s, convertible s = true) (sens self) →
  let o := read_update_aqi_to_graph w csv self in
  res o = Ok () ∧ length (seen o) = 2%nat
  ∧ aqi_data_latest (final o) = csv ∧ aqi_data_wip (final o) = ""
  ∧ aqi_data_updatetime (final o) = Some (utcnow_after w).
Proof.
  intros Hread Hvalid Hsens. cbv zeta.
  rewrite read_update_aqi_to_graph_run. cbv zeta.
  unfold incoming_batch. rewrite Hread. simpl. rewrite Hvalid. simpl.
  destruct (valid_batch_attrs
              (set_G (set_edge_gdf (G self)
                        (merge_left (edge_gdf (G self)) updates))
                 (set_aqi_data_wip csv self))
              (edge_gdf (G self)) updates Hvalid Hsens) as [attrs ->].
  done.
Qed.

Lemma valid_batch_completes_witness :
  let o := read_update_aqi_to_graph world_17 file_17 (init two_edges) in
  res o = Ok () ∧ length (seen o) = 2%nat
  ∧ aqi_data_latest (final o) = file_17 ∧ aqi_data_wip (final o) = ""
  ∧ aqi_data_updatetime (final o) = Some (utcnow_after world_17).
Proof.
  apply (valid_batch_completes world_17 file_17 (init two_edges)
           [(edge_a, exposure (F64.lit 3 1, F64.lit 10 1))]);
    [reflexivity|reflexivity|repeat constructor].
Defined.

Section MergedKeys.

Lemma filter_key_absent (k : uvkey) (updates : list (uvkey * pyval)) :
  k ∉ updates.*1 → filter (λ r, r.1 = k) updates = [].
Proof.
  intros Hk. induction updates as [|[k' v] l IH]; [done|].
  rewrite fmap_cons in Hk. apply not_elem_of_cons in Hk as [Hne Hk].
  rewrite filter_cons_False by (cbn; intros Heq; by apply Hne). by apply IH.
Qed.

Lemma merge_rows_of_key (k : uvkey) (updates : list (uvkey * pyval)) :
  let rows := match filter (λ r, r.1 = k) updates with
              | [] => [(k, VFloat F64.nan)]
              | matches => matches
              end in
  rows ≠ [] ∧ Forall (λ r, r.1 = k) rows
  ∧ (NoDup updates.*1 → rows.*1 = [k]).
Proof.
  cbv zeta. destruct (filter _ updates) as [|r l] eqn:Hf.
  - split; [done|]. split; [by repeat constructor|done].
  - split; [done|]. split.
    + rewrite <- Hf. apply Forall_forall. by intros x [? _]%list_elem_of_filter.
    + intros Hnd. clear -Hf Hnd. revert r l Hf.
      induction updates as [|[k' v] upd IH]; intros r l Hf; [done|].
      rewrite fmap_cons in Hnd. apply NoDup_cons in Hnd as [Hk' Hnd].
      rewrite filter_cons in Hf. simpl in Hf.
      destruct (decide (k' = k)) as [->|Hne].
      * rewrite (filter_key_absent k upd Hk') in Hf. by injection Hf as <- <-.
      * by apply (IH Hnd r l).
Qed.

Lemma merge_left_keys (left : DataFrame) (updates : list (uvkey * pyval)) :
  (∀ k, k ∈ df_keys (merge_left left updates) ↔ k ∈ df_keys left)
  ∧ (NoDup updates.*1 → df_keys (merge_left left updates) = df_keys left).
Proof.
  unfold merge_left. cbn [df_keys]. generalize (df_keys left). intros keys.
  split.
  - intros k. rewrite list_elem_of_fmap. split.
    + intros (r & -> & (k' & Hr & Hk')%list_elem_of_bind).
      destruct (merge_rows_of_key k' updates) as (_ & Hall & _).
      cbv zeta in Hall. rewrite Forall_forall in Hall.
      by rewrite (Hall r Hr).
    + intros Hk. destruct (merge_rows_of_key k updates) as (Hne & Hall & _).
      cbv zeta in Hne, Hall.
      destruct (match filter _ updates with [] => _ | _ => _ end)
        as [|r l] eqn:Hrows; [done|].
      apply Forall_cons in Hall as [Hr _]. exists r. split; [done|].
      apply list_elem_of_bind. exists k. split; [|done].
      rewrite Hrows. by left.
  - intros Hnd. induction keys as [|k keys IH]; [done|].
    rewrite bind_cons, fmap_app, IH.
    destruct (merge_rows_of_key k updates) as (_ & _ & Hone).
    cbv zeta in Hone. by rewrite (Hone Hnd).
Qed.

End MergedKeys.

(** X14: a cycle that reaches the merge leaves an edge table with the
    [aqi_exp] column and the same edges as before; when no edge has two
    records in the batch, the table has the same rows in the same order. *)
Theorem update_keeps_edges (w : World) (csv : string)
    (self : GraphAqiUpdater) (updates : list (uvkey * pyval)) :
  incoming_batch w csv = Ok updates →
  let o := read_update_aqi_to_graph w csv self in
  has_aqi_exp (edge_gdf (G (final o))) = true
  ∧ (∀ k, k ∈ df_keys (edge_gdf (G (final o)))
          ↔ k ∈ df_keys (edge_gdf (G self)))
  ∧ (NoDup updates.*1 →
     df_keys (edge_gdf (G (final o))) = df_keys (edge_gdf (G self))).
Proof.
  intros Hin. cbv zeta.
  assert (Hg : edge_gdf (G (final (read_update_aqi_to_graph w csv self)))
               = merge_left (edge_gdf (G self)) updates).
  { rewrite read_update_aqi_to_graph_run. cbv zeta. rewrite Hin.
    by destruct (_ ≫= _) as [aq_updates|e]. }
  rewrite Hg. split; [done|]. apply merge_left_keys.
Qed.

Lemma update_keeps_edges_witness :
  let o := read_update_aqi_to_graph world_17_no_distance file_17
             (init two_edges) in
  has_aqi_exp (edge_gdf (G (final o))) = true
  ∧ (∀ k, k ∈ df_keys (edge_gdf (G (final o)))
          ↔ k ∈ df_keys (edge_gdf (G (init two_edges))))
  ∧ (NoDup [(edge_a, VTuple [VFloat (F64.lit 25 10); VNone])].*1 →
     df_keys (edge_gdf (G (final o))) = df_keys (edge_gdf (G (init two_edges)))).
Proof.
  apply (update_keeps_edges world_17_no_distance file_17 (init two_edges)
           [(edge_a, VTuple [VFloat (F64.lit 25 10); VNone])]).
  reflexivity.
Defined.

(** ** The status response *)

Section TimeStrings.

Lemma pad2_length (n : Z) : 0 ≤ n < 100 → String.length (pad2 n) = 2%nat.
Proof.
  intros Hn.
  assert (∃ k : nat, n = Z.of_nat k ∧ (k < 100)%nat) as (k & -> & Hk)
    by (exists (Z.to_nat n); lia).
  do 100 (destruct k as [|k]; [reflexivity|]). lia.
Qed.

Lemma length_append (s t : string) :
  String.length (String.append s t) = (String.length s + String.length t)%nat.
Proof. induction s as [|c s IH]; simpl; [done|by rewrite IH]. Qed.

Lemma strftime_short_length (t : datetime) :
  valid_datetime t = true → String.length (strftime_short t) = 17%nat.
Proof.
  intros Ht. pose proof (valid_datetime_bounds t Ht) as (_ & Hh & Hm & Hs & _).
  unfold valid_datetime in Ht.
  repeat match type of Ht with
         | _ && _ = true => apply andb_prop in Ht as [Ht ?]
         end.
  pose proof (days_in_month_bound (year t) (month t)).
  unfold strftime_short. rewrite !length_append, !pad2_length; try lia.
  - done.
  - apply Z.mod_pos_bound. lia.
Qed.

End TimeStrings.

Lemma microseconds_between_add (a b c : datetime) :
  microseconds_between a c
  = microseconds_between a b + microseconds_between b c.
Proof. unfold microseconds_between. ring. Qed.

(** X15: for valid datetimes and a clock that does not go back between its
    two readings, the status response never raises; it names the latest file;
    before any update it is not updated and has neither time nor seconds;
    after an update it has a time of 17 characters and the rounded seconds
    since the update.  The flag follows the first reading of the clock and
    the seconds the second one: seconds below 4200 come with a flag that is
    set, and a flag that is set can come with 4200 seconds. *)
Theorem status_response_fields (w w' : World) (self : GraphAqiUpdater) :
  valid_datetime (utcnow w) = true → valid_datetime (utcnow w') = true →
  valid_updatetime self = true →
  0 ≤ microseconds_between (utcnow w') (utcnow w) →
  ∃ r, get_aqi_update_status_response w w' self = Ok r
       ∧ latest_data r = aqi_data_latest self
       ∧ match aqi_data_updatetime self with
         | None => b_updated r = false ∧ update_time_utc r = None
                   ∧ updated_since_secs r = None
         | Some t =>
             ∃ s n, update_time_utc r = Some s ∧ String.length s = 17%nat
                    ∧ updated_since_secs r = Some n
                    ∧ (b_updated r = true
                       ↔ microseconds_between (utcnow w) t < 4199500000)
                    ∧ (n < 4200
                       ↔ microseconds_between (utcnow w') t < 4199500000)
                    ∧ (n < 4200 → b_updated r = true)
         end.
Proof.
  intros Hnow Hnow' Ht Hclock. unfold get_aqi_update_status_response.
  destruct (bool_graph_aqi_is_up_to_date_value w self Hnow Ht) as [-> _].
  destruct (bool_graph_aqi_is_up_to_date_value w' self Hnow' Ht) as [_ ->].
  unfold get_aqi_update_time_str. unfold valid_updatetime in Ht.
  destruct (aqi_data_updatetime self) as [t|]; [|by eexists].
  destruct (rounded_seconds (microseconds_between (utcnow w') t))
    as (x & n & -> & Hn & Hiff); [by apply microseconds_between_bounds|].
  simpl. rewrite Hn. simpl. eexists. split; [done|]. split; [done|].
  exists (strftime_short t), n.
  cbn [update_time_utc updated_since_secs b_updated].
  split; [done|]. split; [by apply strftime_short_length|].
  split; [done|]. split; [apply bool_decide_eq_true|]. split; [done|].
  intros Hlt%Hiff. apply bool_decide_eq_true_2.
  rewrite (microseconds_between_add (utcnow w') (utcnow w) t) in Hlt. lia.
Qed.

(** The response 69 minutes and 59.4 seconds after the update of 17:05:02,
    with the second reading of the clock 0.2 seconds later: the flag is set
    and the seconds are 4200. *)
Lemma status_response_fields_witness :
  ∃ r, get_aqi_update_status_response (world_at 18 15 1 400000)
         (world_at 18 15 1 600000) updated_17 = Ok r
       ∧ latest_data r = aqi_data_latest updated_17
       ∧ match aqi_data_updatetime updated_17 with
         | None => b_updated r = false ∧ update_time_utc r = None
                   ∧ updated_since_secs r = None
         | Some t =>
             ∃ s n, update_time_utc r = Some s ∧ String.length s = 17%nat
                    ∧ updated_since_secs r = Some n
                    ∧ (b_updated r = true
                       ↔ microseconds_between
                           (utcnow (world_at 18 15 1 400000)) t < 4199500000)
                    ∧ (n < 4200
                       ↔ microseconds_between
                           (utcnow (world_at 18 15 1 600000)) t < 4199500000)
                    ∧ (n < 4200 → b_updated r = true)
         end.
Proof.
  apply (status_response_fields (world_at 18 15 1 400000)
           (world_at 18 15 1 600000) updated_17);
    vm_compute; (reflexivity || discriminate).
Defined.

Example status_response_example :
  get_aqi_update_status_response (world_at 18 15 1 400000)
    (world_at 18 15 1 600000) updated_17
  = Ok {| b_updated := true; latest_data := file_17;
          update_time_utc := Some "19/11/11 17:05:02";
          updated_since_secs := Some 4200 |}.
Proof. vm_compute. reflexivity. Qed.

(** X16: once the data is not up to date, it stays so at every later time
    until the updater changes. *)
Theorem staleness_persists (w1 w2 : World) (self : GraphAqiUpdater) :
  valid_datetime (utcnow w1) = true → valid_datetime (utcnow w2) = true →
  valid_updatetime self = true →
  0 ≤ microseconds_between (utcnow w2) (utcnow w1) →
  bool_graph_aqi_is_up_to_date w1 self = Ok false →
  bool_graph_aqi_is_up_to_date w2 self = Ok false.
Proof.
  intros H1 H2 Ht Hlater.
  destruct (bool_graph_aqi_is_up_to_date_value w1 self H1 Ht) as [-> _].
  destruct (bool_graph_aqi_is_up_to_date_value w2 self H2 Ht) as [-> _].
  destruct (aqi_data_updatetime self) as [t|]; [|done].
  intros Hstale. f_equal.
  assert (Hb : bool_decide
                 (microseconds_between (utcnow w1) t < 4199500000) = false)
    by congruence.
  clear Hstale. apply bool_decide_eq_false in Hb.
  apply bool_decide_eq_false_2.
  rewrite (microseconds_between_add (utcnow w2) (utcnow w1) t). lia.
Qed.

Lemma staleness_persists_witness :
  bool_graph_aqi_is_up_to_date (world_at 19 0 0 0) updated_17 = Ok false.
Proof.
  apply (staleness_persists (world_at 18 15 2 0) (world_at 19 0 0 0) updated_17);
    vm_compute; (reflexivity || discriminate).
Defined.

(** X17: the check for new data is idempotent: a second check at the same
    time gives the same answer and leaves the updater, status text included,
    as the first check left it; neither stores a dataset. *)
Theorem new_aqi_data_available_twice (w : World) (self : GraphAqiUpdater) :
  let o1 := new_aqi_data_available w self in
  let o2 := new_aqi_data_available w (final o1) in
  res o2 = res o1 ∧ final o2 = final o1 ∧ seen o1 = [] ∧ seen o2 = [].
Proof.
  cbv zeta. unfold new_aqi_data_available, mbind, method_bind, mret, method_ret,
    get_self, modify.
  generalize (get_expected_aqi_data_name w). intros name.
  generalize (String.append "AQI update will be done from: " name).
  generalize (String.append "expected AQI data is not available ("
                (String.append name ")")).
  generalize "latest AQI was updated to graph".
  generalize "AQI update already in progress".
  intros s1 s2 s3 s4.
  destruct self as [g ss st wip latest t].
  cbn [res final seen aqi_data_latest aqi_data_wip aqi_update_status].
  destruct (decide (name = latest)); [|destruct (decide (name = wip));
    [|destruct (listdir w) as [names|e];
      [destruct (decide (name ∈ names))|]]];
  cbn [res final seen aqi_data_latest aqi_data_wip aqi_update_status app
       set_aqi_update_status lift];
  repeat (case_decide;
          cbn [res final seen aqi_data_latest aqi_data_wip aqi_update_status
               app set_aqi_update_status G sens aqi_data_updatetime] in * );
  try done.
Qed.

(** ** The first update *)

Lemma expected_name_not_empty (w : World) : get_expected_aqi_data_name w ≠ "".
Proof. unfold get_expected_aqi_data_name. by cbn [String.append]. Qed.

Lemma fresh_updater_check (w : World) (g : GraphHandler) :
  res (new_aqi_data_available w (init g))
  = (names ← listdir w;
     Ok (if decide (get_expected_aqi_data_name w ∈ names)
         then Some (get_expected_aqi_data_name w) else None)).
Proof.
  destruct (new_aqi_data_available_spec w (init g)) as (_ & _ & ->).
  cbn [init aqi_data_latest aqi_data_wip].
  pose proof (expected_name_not_empty w).
  by repeat case_decide.
Qed.

Lemma read_csv_listed (w : World) (name : string) updates names :
  read_csv w name = Ok updates → listdir w = Ok names → name ∈ names.
Proof.
  unfold read_csv, listdir. destruct (aqi_dir_error w); [done|].
  intros Hread [= <-]. revert Hread.
  destruct (filter _ (aqi_dir_files w)) as [|f l] eqn:Hf; [done|]. intros _.
  assert (Hin : f ∈ filter (λ f, f.1 = name) (aqi_dir_files w))
    by (rewrite Hf; by left).
  apply list_elem_of_filter in Hin as [<- Hin]. by apply list_elem_of_fmap_2.
Qed.

(** X18: when the directory can be listed, a trigger on an updater that
    never updated does nothing if the expected file is not in the directory,
    and completes the update if the file reads as a batch that passes the
    type validation. *)
Theorem fresh_updater_first_update (w : World) (g : GraphHandler) :
  let o := maybe_read_update_aqi_to_graph w (init g) in
  let csv := get_expected_aqi_data_name w in
  (∀ names, listdir w = Ok names → csv ∉ names →
     seen o = [] ∧ aqi_data_latest (final o) = ""
     ∧ aqi_data_updatetime (final o) = None)
  ∧ (∀ names updates,
       listdir w = Ok names →
       read_csv w csv = Ok updates →
       validate_aqi_exps (EdgesExp updates) = Ok true →
       length (seen o) = 2%nat ∧ aqi_data_latest (final o) = csv
       ∧ aqi_data_wip (final o) = ""
       ∧ aqi_data_updatetime (final o) = Some (utcnow_after w)).
Proof.
  cbv zeta. pose proof (fresh_updater_check w g) as Hnew.
  destruct (new_aqi_data_available_spec w (init g))
    as (_ & (_ & Hsens & _ & Hlatest & Htime) & _).
  split.
  - intros names Hlist Hno. rewrite Hlist in Hnew. simpl in Hnew.
    rewrite decide_False in Hnew by done.
    destruct (maybe_read_update_idle w (init g) Hnew) as (-> & -> & _).
    by rewrite Hlatest, Htime.
  - intros names updates Hlist Hread Hvalid.
    rewrite Hlist in Hnew. simpl in Hnew.
    rewrite decide_True in Hnew
      by by apply (read_csv_listed w _ updates names).
    set (self0 := final (new_aqi_data_available w (init g))) in *.
    set (csv := get_expected_aqi_data_name w) in *.
    assert (Hrun : ∃ s f,
               read_update_aqi_to_graph w csv self0
               = {| seen := s; final := f; res := Ok () |}
               ∧ length s = 2%nat ∧ aqi_data_latest f = csv
               ∧ aqi_data_wip f = ""
               ∧ aqi_data_updatetime f = Some (utcnow_after w)).
    { rewrite read_update_aqi_to_graph_run. cbv zeta.
      unfold incoming_batch. rewrite Hread. simpl. rewrite Hvalid. simpl.
      destruct (valid_batch_attrs
                  (set_G (set_edge_gdf (G self0)
                            (merge_left (edge_gdf (G self0)) updates))
                     (set_aqi_data_wip csv self0))
                  (edge_gdf (G self0)) updates Hvalid) as [attrs ->];
        [cbn [sens set_G set_aqi_data_wip]; rewrite Hsens;
         apply (catalogue_convertible false)|].
      by do 2 eexists. }
    destruct Hrun as (s & f & Hrun & Hfields).
    rewrite (maybe_read_update_run w (init g) csv Hnew). cbv zeta.
    fold self0. by rewrite Hrun.
Qed.
